(** * Pricebook search: the loader, the row filter and the summarisation step

    A shallow embedding of [app.py]: [load_and_combine_data],
    [search_dataframe] and [get_gemini_answer], together with the parts of
    Python's [str], of [re] and of pandas that these three functions call.

    Python strings are modelled as [string], one [ascii] per code point, so
    the development covers text whose code points are below 256. *)

From Stdlib Require Import ZArith String Ascii List Bool Lia DecimalString.
From Corelib Require Import SpecFloat.
From stdpp Require Import base tactics list strings.

Local Open Scope string_scope.
Local Open Scope list_scope.

(** ** Python [str] *)

Module PyStr.

Definition code (c : ascii) : nat := nat_of_ascii c.

Definition between (lo hi n : nat) : bool := (lo <=? n)%nat && (n <=? hi)%nat.

(** [str.isspace] on one code point: TAB..CR, FS..US, SPACE, NEL, NBSP. *)
Definition isspace (c : ascii) : bool :=
  let n := code c in
  between 9 13 n || between 28 31 n || (n =? 32)%nat
  || (n =? 133)%nat || (n =? 160)%nat.

(** [str.lower] on one code point: A..Z and the Latin-1 capitals
    (U+00C0..U+00DE without the multiplication sign U+00D7). *)
Definition lower_char (c : ascii) : ascii :=
  let n := code c in
  if between 65 90 n || (between 192 222 n && negb (n =? 215)%nat)
  then ascii_of_nat (n + 32) else c.

Fixpoint lower (s : string) : string :=
  match s with
  | EmptyString => EmptyString
  | String c s' => String (lower_char c) (lower s')
  end.

Fixpoint lstrip (s : string) : string :=
  match s with
  | EmptyString => EmptyString
  | String c s' => if isspace c then lstrip s' else s
  end.

(** Drops trailing white space: a character is kept when something
    that is kept follows it, or when it is not white space itself. *)
Fixpoint rstrip (s : string) : string :=
  match s with
  | EmptyString => EmptyString
  | String c s' =>
      match rstrip s' with
      | EmptyString => if isspace c then EmptyString else String c EmptyString
      | t => String c t
      end
  end.

(** [s.strip()] *)
Definition strip (s : string) : string := rstrip (lstrip s).

Fixpoint startswith (s p : string) {struct p} : bool :=
  match p, s with
  | EmptyString, _ => true
  | String a p', String b s' => Ascii.eqb a b && startswith s' p'
  | String _ _, EmptyString => false
  end.

(** [sub in s]: literal substring containment. *)
Fixpoint contains (s sub : string) : bool :=
  startswith s sub
  || match s with
     | EmptyString => false
     | String _ s' => contains s' sub
     end.

(** [str(n)] for an [int]. *)
Definition str_int (z : Z) : string := NilZero.string_of_int (Z.to_int z).

Fixpoint all_chars (p : ascii -> bool) (s : string) : bool :=
  match s with
  | EmptyString => true
  | String c s' => p c && all_chars p s'
  end.

End PyStr.

(** ** Python [re]: the fragment the filter can be traced on

    [Series.str.contains(pat)] is called without [regex=False], so pandas
    compiles [pat] with [re.compile] and tests every element with
    [regex.search].  The fragment modelled here has literals, [.], [^], [$],
    [|], groups, the repeats [*], [+], [?] with their lazy forms, and
    backslash before a character that is not an ASCII letter or digit.
    Character sets, counted repeats, [(?...)] extensions, possessive repeats
    and backslash before a letter or digit are reported as [NotModelled]:
    the development states nothing about them. *)

Module PyRe.

Inductive regex : Type :=
| Empty                       (* the empty sequence *)
| Lit (c : ascii)             (* LITERAL *)
| AnyChar                     (* ANY: every character but newline *)
| AtBeginning                 (* AT_BEGINNING, [^] *)
| AtEnd                       (* AT_END, [$] *)
| Cat (a b : regex)
| Branch (a b : regex)        (* BRANCH, [|] *)
| Repeat (a : regex).         (* MAX_REPEAT 0..MAXREPEAT *)

Inductive verdict (A : Type) : Type :=
| Good (a : A)
| ReError                     (* [re.error] is raised *)
| NotModelled.                (* syntax outside the fragment *)
Arguments Good {A} a.
Arguments ReError {A}.
Arguments NotModelled {A}.

(** What the parser remembers about the last item of a sequence. *)
Inductive tag : Type :=
| Plain                       (* may be repeated *)
| Anchor                      (* AT: nothing to repeat *)
| Repeated                    (* just repeated: a lazy [?] may follow *)
| RepeatedDone.               (* repeated, lazy mark consumed *)

(** A frame holds the finished branches and the items of the branch being
    read, both most recent first. *)
Record frame : Type := Frame { alts : list regex; items : list (regex * tag) }.

Record pstate : Type :=
  PState { outer : list frame; cur : frame; esc : bool }.

Definition mk_cat (its : list (regex * tag)) : regex :=
  fold_left (fun acc it => Cat (fst it) acc) its Empty.

Definition close (f : frame) : regex :=
  fold_left (fun acc b => Branch b acc) (alts f) (mk_cat (items f)).

Definition push (it : regex * tag) (st : pstate) : pstate :=
  PState (outer st) (Frame (alts (cur st)) (it :: items (cur st))) false.

Definition is_ascii_alnum (c : ascii) : bool :=
  let n := PyStr.code c in
  PyStr.between 48 57 n || PyStr.between 65 90 n || PyStr.between 97 122 n.

(** The characters [sre_parse] treats specially, with [)] and [|]. *)
Definition is_special (c : ascii) : bool :=
  match c with
  | "."%char | "\"%char | "["%char | "{"%char | "("%char | ")"%char
  | "*"%char | "+"%char | "?"%char | "^"%char | "$"%char | "|"%char => true
  | _ => false
  end.

Definition quantify (q : ascii) (r : regex) : regex :=
  match q with
  | "*"%char => Repeat r
  | "+"%char => Cat r (Repeat r)
  | _ => Branch r Empty
  end.

Definition repeat_item (q : ascii) (st : pstate) : verdict pstate :=
  match items (cur st) with
  | [] =>
      match q, outer st, alts (cur st) with
      | "?"%char, _ :: _, [] => NotModelled        (* [(?]: an extension *)
      | _, _, _ => ReError                         (* nothing to repeat *)
      end
  | (r, Plain) :: rest =>
      Good (PState (outer st)
              (Frame (alts (cur st)) ((quantify q r, Repeated) :: rest)) false)
  | (_, Anchor) :: _ => ReError                    (* nothing to repeat *)
  | (r, Repeated) :: rest =>
      match q with
      | "?"%char =>                                (* lazy: same matches *)
          Good (PState (outer st)
                  (Frame (alts (cur st)) ((r, RepeatedDone) :: rest)) false)
      | "+"%char => NotModelled                    (* possessive *)
      | _ => ReError                               (* multiple repeat *)
      end
  | (_, RepeatedDone) :: _ => ReError              (* multiple repeat *)
  end.

Definition step (c : ascii) (st : pstate) : verdict pstate :=
  if esc st then
    if is_ascii_alnum c then NotModelled else Good (push (Lit c, Plain) st)
  else
    match c with
    | "\"%char => Good (PState (outer st) (cur st) true)
    | "["%char | "{"%char => NotModelled
    | "."%char => Good (push (AnyChar, Plain) st)
    | "^"%char => Good (push (AtBeginning, Anchor) st)
    | "$"%char => Good (push (AtEnd, Anchor) st)
    | "("%char => Good (PState (cur st :: outer st) (Frame [] []) false)
    | ")"%char =>
        match outer st with
        | [] => ReError                            (* unbalanced parenthesis *)
        | f :: fs =>
            Good (PState fs
                    (Frame (alts f) ((close (cur st), Plain) :: items f)) false)
        end
    | "|"%char =>
        Good (PState (outer st)
                (Frame (mk_cat (items (cur st)) :: alts (cur st)) []) false)
    | "*"%char | "+"%char | "?"%char => repeat_item c st
    | _ => Good (push (Lit c, Plain) st)
    end.

Fixpoint parse_loop (pat : string) (st : pstate) : verdict pstate :=
  match pat with
  | EmptyString => Good st
  | String c pat' =>
      match step c st with
      | Good st' => parse_loop pat' st'
      | ReError => ReError
      | NotModelled => NotModelled
      end
  end.

(** [re.compile(pat)] *)
Definition compile (pat : string) : verdict regex :=
  match parse_loop pat (PState [] (Frame [] []) false) with
  | Good st =>
      if esc st then ReError                       (* bad escape (end of pattern) *)
      else match outer st with
           | [] => Good (close (cur st))
           | _ :: _ => ReError                     (* missing ), unterminated *)
           end
  | ReError => ReError
  | NotModelled => NotModelled
  end.

(** A matcher position: whether it is the start of the subject, and the
    text that is left. *)
Definition position : Type := bool * string.

Definition progress (from to : position) : bool :=
  (String.length (snd to) <? String.length (snd from))%nat.

Fixpoint star_loop (body : position -> list position) (fuel : nat)
    (p : position) : list position :=
  p :: match fuel with
       | O => []
       | S fuel' =>
           flat_map (star_loop body fuel') (List.filter (progress p) (body p))
       end.

(** All positions at which a match of [r] that starts at [p] can end. *)
Fixpoint run (r : regex) (p : position) : list position :=
  match r with
  | Empty => [p]
  | Lit c =>
      match snd p with
      | String c' rest => if Ascii.eqb c c' then [(false, rest)] else []
      | EmptyString => []
      end
  | AnyChar =>
      match snd p with
      | String c' rest => if Ascii.eqb c' "010"%char then [] else [(false, rest)]
      | EmptyString => []
      end
  | AtBeginning => if fst p then [p] else []
  | AtEnd =>
      match snd p with
      | EmptyString => [p]
      | String c' EmptyString => if Ascii.eqb c' "010"%char then [p] else []
      | _ => []
      end
  | Cat a b => flat_map (run b) (run a p)
  | Branch a b => run a p ++ run b p
  | Repeat a => star_loop (run a) (String.length (snd p)) p
  end.

Definition matches_at (r : regex) (p : position) : bool :=
  match run r p with [] => false | _ :: _ => true end.

Fixpoint search_from (r : regex) (bos : bool) (s : string) : bool :=
  matches_at r (bos, s)
  || match s with
     | EmptyString => false
     | String _ s' => search_from r false s'
     end.

(** [regex.search(s) is not None] *)
Definition search (r : regex) (s : string) : bool := search_from r true s.

End PyRe.

(** ** pandas: frames of scalars

    A frame is kept row by row.  A cell is the scalar pandas holds for it;
    a missing value is the float NaN, as [read_csv] produces it.  The dtype
    of a column is read off its cells, the way [read_csv] infers it. *)

Module Pandas.

Inductive cell : Type :=
| VStr (s : string)           (* Python str, in an object column *)
| VInt (z : Z)                (* int64 *)
| VFloat (x : spec_float)     (* float64 *)
| VBool (b : bool).           (* bool *)

Definition NaN : cell := VFloat S754_nan.

Definition isna (c : cell) : bool :=
  match c with VFloat S754_nan => true | _ => false end.


Definition row : Type := list cell.

Record DataFrame : Type := mkDataFrame { columns : list string; rows : list row }.

(** [pd.DataFrame()] *)
Definition empty_frame : DataFrame := mkDataFrame [] [].

(** [len(df)] *)
Definition len (df : DataFrame) : nat := length (rows df).

(** [df.empty]: some axis has length zero. *)
Definition empty (df : DataFrame) : bool :=
  (length (rows df) =? 0)%nat || (length (columns df) =? 0)%nat.

(** [df.head(n)] *)
Definition head (n : nat) (df : DataFrame) : DataFrame :=
  mkDataFrame (columns df) (firstn n (rows df)).

Inductive dtype : Type := int64 | float64 | bool_ | object.

Definition dtype_of (c : cell) : dtype :=
  match c with
  | VStr _ => object
  | VInt _ => int64
  | VFloat _ => float64
  | VBool _ => bool_
  end.

Definition find_common_type (a b : dtype) : dtype :=
  match a, b with
  | int64, int64 => int64
  | float64, float64 | int64, float64 | float64, int64 => float64
  | bool_, bool_ => bool_
  | _, _ => object
  end.

(** The dtype that holds all of [cs]; [None] when there is no cell. *)
Definition common_dtype (cs : list cell) : option dtype :=
  match cs with
  | [] => None
  | c :: cs' =>
      Some (fold_left (fun t c' => find_common_type t (dtype_of c')) cs' (dtype_of c))
  end.

(** int64 to float64, round to nearest even. *)
Definition float_of_int (z : Z) : spec_float := binary_normalize 53 1024 z 0 false.

(** A cell as it is held under dtype [t]: only an int under float64
    changes. *)
Definition cast (t : option dtype) (c : cell) : cell :=
  match t, c with
  | Some float64, VInt z => VFloat (float_of_int z)
  | _, _ => c
  end.

(** The cell of [r] under column [name]; NaN when the frame has no such
    column. *)
Fixpoint get (name : string) (names : list string) (r : row) : cell :=
  match names, r with
  | n :: names', c :: r' => if String.eqb n name then c else get name names' r'
  | _, _ => NaN
  end.

Definition reindex (cols names : list string) (r : row) : row :=
  map (fun name => get name names r) cols.

Definition add_column (acc : list string) (name : string) : list string :=
  if existsb (String.eqb name) acc then acc else acc ++ [name].

(** Union of the column labels, in order of first appearance. *)
Definition union_columns (frames : list DataFrame) : list string :=
  fold_left (fun acc df => fold_left add_column (columns df) acc) frames [].

(** The rows of [df] laid out under the columns [cols]. *)
Definition aligned_rows (cols : list string) (df : DataFrame) : list row :=
  map (reindex cols (columns df)) (rows df).

Definition column (j : nat) (rs : list row) : list cell :=
  omap (fun r : row => r !! j) rs.

Definition has_column (name : string) (df : DataFrame) : bool :=
  existsb (String.eqb name) (columns df).

(** [ensure_dtype_can_hold_na] *)
Definition ensure_dtype_can_hold_na (t : dtype) : dtype :=
  match t with
  | int64 => float64
  | bool_ => object
  | float64 => float64
  | object => object
  end.

(** The dtype [concat] gives column [name], the [j]-th of the stacked rows
    [rs]: the common dtype of its pieces, made able to hold NaN as soon as
    one of the frames does not have the column, whether or not that frame
    has rows. *)
Definition column_dtype (frames : list DataFrame) (rs : list row) (j : nat)
    (name : string) : option dtype :=
  let t := common_dtype (column j rs) in
  if forallb (has_column name) frames then t
  else option_map ensure_dtype_can_hold_na t.

Definition column_dtypes (frames : list DataFrame) (cols : list string)
    (rs : list row) : list (option dtype) :=
  imap (column_dtype frames rs) cols.

Definition cast_row (ts : list (option dtype)) (r : row) : row :=
  zip_with cast ts r.

(** [pd.concat(frames, ignore_index=True)]: outer join on the columns, rows
    stacked in the order of [frames], every column held under the common
    dtype of its pieces. *)
Definition concat (frames : list DataFrame) : DataFrame :=
  let cols := union_columns frames in
  let stacked := flat_map (aligned_rows cols) frames in
  mkDataFrame cols (map (cast_row (column_dtypes frames cols stacked)) stacked).

Definition fillna_cell (value : string) (c : cell) : cell :=
  if isna c then VStr value else c.

(** [df.fillna(value)] *)
Definition fillna (value : string) (df : DataFrame) : DataFrame :=
  mkDataFrame (columns df) (map (map (fillna_cell value)) (rows df)).

(** [df[mask]] with a boolean mask, one entry per row. *)
Definition boolean_index (df : DataFrame) (mask : list bool) : DataFrame :=
  mkDataFrame (columns df) (map fst (List.filter snd (combine (rows df) mask))).

Section Rendering.

(** [repr] of a float64, left to the Python runtime. *)
Variable float_repr : spec_float -> string.

(** [str(x)] of one scalar. *)
Definition str_cell (c : cell) : string :=
  match c with
  | VStr s => s
  | VInt z => PyStr.str_int z
  | VFloat x => float_repr x
  | VBool true => "True"
  | VBool false => "False"
  end.

(** [row.astype(str)] for a row handed out by [df.apply(axis=1)]: the
    row is a slice of [df.values], held under the common dtype of the
    whole frame. *)
Definition row_astype_str (df : DataFrame) (r : row) : list string :=
  map str_cell (map (cast (common_dtype (List.concat (rows df)))) r).

End Rendering.

End Pandas.

(** ** The application *)

Import Pandas.
Import PyRe (verdict, Good, ReError, NotModelled).

(** What the page is told through [st.warning] and [st.error]. *)
Inductive report : Type :=
| st_warning (msg : string)
| st_error (msg : string).

(** What [pd.read_csv] does for one path. *)
Inductive read_result : Type :=
| ReadOk (df : DataFrame)
| FileNotFound                  (* FileNotFoundError *)
| ReadFailed (e : string).      (* any other Exception, with its text *)

Definition nl : string := String "010"%char EmptyString.

(** The sheets of the pricebook. *)
Definition CSV_FILES : list string :=
  ["Trellix Helix.csv";
   "Trellix Email Security.csv";
   "Trellix Endpoint Security.csv";
   "Trellix Server Security.csv";
   "Trellix Data Security.csv";
   "Trellix EU_DE Data Center.csv";
   "Trellix JP_ AU Data Centers.csv";
   "Trellix SG Data Center.csv";
   "Trellix Network Security.csv";
   "Trellix IVX.csv";
   "Trellix SIEM.csv";
   "Trellix HW Accessories.csv";
   "Trellix Success Services.csv";
   "Trellix Legacy.csv";
   "Trellix Legacy (former FireEye.csv";
   "Skyhigh.csv";
   "Skyhigh Legacy.csv"].

Section Loader.

Variable read_csv : string -> read_result.

(** The [for file_path in file_paths] loop. *)
Fixpoint load_loop (file_paths : list string) (all_data : list DataFrame)
    (log : list report) : list DataFrame * list report :=
  match file_paths with
  | [] => (all_data, log)
  | file_path :: rest =>
      match read_csv file_path with
      | ReadOk df => load_loop rest (all_data ++ [df]) log
      | FileNotFound =>
          load_loop rest all_data
            (log ++ [st_warning ("File not found: " +:+ file_path +:+
               ". Please ensure all CSV files are in the same directory.")])
      | ReadFailed e =>
          load_loop rest all_data
            (log ++ [st_error ("Error loading " +:+ file_path +:+ ": " +:+ e)])
      end
  end.

Definition no_data_loaded : report :=
  st_error "No data loaded. Please check your CSV file paths and names.".

Definition load_and_combine_data (file_paths : list string)
    : DataFrame * list report :=
  let '(all_data, log) := load_loop file_paths [] [] in
  match all_data with
  | [] => (empty_frame, log ++ [no_data_loaded])
  | _ :: _ =>
      let combined_df := concat all_data in
      (fillna "" combined_df, log)
  end.

End Loader.

Section Filter.

Variable float_repr : spec_float -> string.

(** [cells.str.contains(pat).any()]: [pat] is compiled as a regular
    expression and searched for in every element. *)
Definition str_contains_any (cells : list string) (pat : string) : verdict bool :=
  match PyRe.compile pat with
  | Good r => Good (existsb (PyRe.search r) cells)
  | ReError => ReError
  | NotModelled => NotModelled
  end.

(** The lambda handed to [df.apply]. *)
Definition row_matches (df : DataFrame) (query_lower : string) (r : row)
    : verdict bool :=
  str_contains_any (map PyStr.lower (row_astype_str float_repr df r)) query_lower.

(** [df.apply(f, axis=1)] with [f] returning a bool. *)
Fixpoint apply_rows (f : row -> verdict bool) (rs : list row)
    : verdict (list bool) :=
  match rs with
  | [] => Good []
  | r :: rs' =>
      match f r with
      | Good b =>
          match apply_rows f rs' with
          | Good bs => Good (b :: bs)
          | ReError => ReError
          | NotModelled => NotModelled
          end
      | ReError => ReError
      | NotModelled => NotModelled
      end
  end.

(** [df[df.apply(f, axis=1)]] on a frame without rows.  [apply] tries [f]
    once on a row of NaN to see what it returns and swallows what that
    raises.  When the pattern compiles, [apply] answers with an empty float
    Series, which [df[...]] reads as an empty list of column labels: the
    result has no column.  When [re.compile] raises, [apply] answers with a
    copy of the frame and [df[...]] keeps the columns. *)
Definition filter_without_rows (df : DataFrame) (query_lower : string)
    : verdict DataFrame :=
  match PyRe.compile query_lower with
  | Good _ => Good empty_frame
  | ReError => Good (boolean_index df [])
  | NotModelled => NotModelled
  end.

Definition search_dataframe (df : DataFrame) (query : string)
    : verdict DataFrame :=
  if String.eqb (PyStr.strip query) "" then Good empty_frame
  else
    let query_lower := PyStr.lower query in
    match rows df with
    | [] => filter_without_rows df query_lower
    | _ :: _ =>
        match apply_rows (row_matches df query_lower) (rows df) with
        | Good mask => Good (boolean_index df mask)
        | ReError => ReError
        | NotModelled => NotModelled
        end
    end.

(** What [re] does with a pattern outside the modelled fragment: [None]
    when [re.compile] raises, otherwise the [search] of the compiled
    pattern as a test on strings. *)
Definition beyond : Type := string -> option (string -> bool).

Section AnyPattern.

Variable rest : beyond.

(** [re.compile(pat)] for every pattern: the fragment as modelled, the
    other patterns as [rest] has them. *)
Definition compile_with (pat : string) : option (string -> bool) :=
  match PyRe.compile pat with
  | Good r => Some (PyRe.search r)
  | ReError => None
  | NotModelled => rest pat
  end.

Definition row_matches_with (df : DataFrame) (query_lower : string) (r : row)
    : option bool :=
  match compile_with query_lower with
  | Some found =>
      Some (existsb found (map PyStr.lower (row_astype_str float_repr df r)))
  | None => None
  end.

Fixpoint apply_rows_with (f : row -> option bool) (rs : list row)
    : option (list bool) :=
  match rs with
  | [] => Some []
  | r :: rs' =>
      match f r with
      | Some b =>
          match apply_rows_with f rs' with
          | Some bs => Some (b :: bs)
          | None => None
          end
      | None => None
      end
  end.

(** [search_dataframe] for every query; [None] when [re.error] is
    raised. *)
Definition search_dataframe_with (df : DataFrame) (query : string)
    : option DataFrame :=
  if String.eqb (PyStr.strip query) "" then Some empty_frame
  else
    let query_lower := PyStr.lower query in
    match rows df with
    | [] =>
        match compile_with query_lower with
        | Some _ => Some empty_frame
        | None => Some (boolean_index df [])
        end
    | _ :: _ =>
        match apply_rows_with (row_matches_with df query_lower) (rows df) with
        | Some mask => Some (boolean_index df mask)
        | None => None
        end
    end.

End AnyPattern.

End Filter.

Section Summary.

(** [df.to_markdown(index=False)], left to pandas and tabulate. *)
Variable to_markdown : DataFrame -> string.

(** The three calls inside the [try]: the text of the response, or the
    text of the exception one of them raised. *)
Variable generate_content : string -> string + string.

Definition max_rows_for_gemini : nat := 10.

Definition omitted_note (n : nat) : string :=
  nl +:+ "... (and " +:+ PyStr.str_int (Z.of_nat n - Z.of_nat max_rows_for_gemini)
     +:+ " more results not shown due to length)".

Definition results_str (search_results_df : DataFrame) : string :=
  if (max_rows_for_gemini <? len search_results_df)%nat then
    to_markdown (head max_rows_for_gemini search_results_df)
      +:+ omitted_note (len search_results_df)
  else to_markdown search_results_df.

Definition prompt_head (query : string) : string :=
  "The user searched for '" +:+ query +:+ "' in a pricebook spreadsheet. "
    +:+ "Here are the relevant search results:" +:+ nl +:+ nl.

Definition prompt_tail : string :=
  nl +:+ nl
    +:+ "Based on these results, please provide a concise and helpful answer to the user's query. "
    +:+ "If the results contain pricing information, mention it clearly. "
    +:+ "If the results are unclear or incomplete for the query, state that you are providing information based on the available data. "
    +:+ "Focus on extracting key information like product names, descriptions, and prices if available.".

Definition make_prompt (query : string) (search_results_df : DataFrame) : string :=
  if empty search_results_df then
    "The user searched for '" +:+ query +:+
    "' but no relevant data was found in the pricebook. Please provide a helpful response indicating that no matching items were found."
  else
    prompt_head query +:+ results_str search_results_df +:+ prompt_tail.

Definition apology : string :=
  "Sorry, I couldn't get an answer from Gemini at this moment.".

Definition get_gemini_answer (query : string) (search_results_df : DataFrame)
    : string * list report :=
  let prompt := make_prompt query search_results_df in
  match generate_content prompt with
  | inl text => (text, [])
  | inr e => (apology, [st_error ("Error communicating with Gemini API: " +:+ e)])
  end.

End Summary.

(** ** The page: one run of the script

    Streamlit runs the script from top to bottom for every interaction.  A
    run is modelled by the elements it puts on the page, in order, and by
    the way it ends.  Its inputs are the secret (if any), the text in the
    input box and whether the button was pressed for this run. *)

(** The two subheaders, which differ by their text. *)
Inductive heading : Type :=
| SearchResultsHeading          (* "... Search Results from Pricebook" *)
| GeminiAnswerHeading.          (* "... Gemini's Answer" *)

Inductive element : Type :=
| st_set_page_config
| st_title                      (* "... Pricebook Search Assistant" *)
| st_markdown (body : string)
| st_spinner (text : string)
| st_report (r : report)        (* st.warning, st.error *)
| st_success (msg : string)
| st_info (msg : string)
| st_text_input (label : string)
| st_button (label : string)
| st_subheader (h : heading)
| st_dataframe (df : DataFrame)
| st_write (text : string).

Inductive ending : Type :=
| Finished                      (* the script reached its last line *)
| Stopped                       (* st.stop() *)
| Raised                        (* an uncaught re.error *)
| Untraced.                     (* the query is outside the modelled [re] *)

Definition key_not_found : element :=
  st_report (st_error
    "Gemini API Key not found. Please set it as a Streamlit secret named 'GEMINI_API_KEY'.").

Definition intro : string :=
  nl +:+ "    This app allows you to search through your uploaded pricebook data and get"
     +:+ nl +:+ "    intelligent answers powered by Google Gemini."
     +:+ nl +:+ "    ".

Definition page_top : list element :=
  [st_set_page_config; st_title; st_markdown intro;
   st_spinner "Loading pricebook data... This might take a moment."].

Definition page_bottom : list element :=
  [st_markdown "---"; st_markdown "Developed with Streamlit and Google Gemini API."].

Definition search_widgets (combined_pricebook_df : DataFrame) : list element :=
  [st_success ("Loaded " +:+ PyStr.str_int (Z.of_nat (len combined_pricebook_df))
                 +:+ " rows from your pricebook.");
   st_info "Enter your query in the text box below to search the pricebook.";
   st_text_input
     "Enter your search query (e.g., 'Trellix Endpoint Security price', 'Helix features')";
   st_button "Search Pricebook"].

Definition could_not_load : element :=
  st_report (st_error
    "Could not load pricebook data. Please ensure CSV files are correctly named and present.").

Definition no_direct_matches : element :=
  st_info "No direct matches found in the pricebook for your query.".

Definition enter_a_query : element :=
  st_report (st_warning "Please enter a query to search.").

Definition searching : element := st_spinner "Searching and generating answer...".

Section Page.

Variable read_csv : string -> read_result.
Variable float_repr : spec_float -> string.
Variable to_markdown : DataFrame -> string.
Variable generate_content : string -> string + string.

(** The body of [if st.button("Search Pricebook"):] for a query that is
    not the empty string. *)
Definition search_and_answer (combined_pricebook_df : DataFrame)
    (user_query : string) : list element * ending :=
  match search_dataframe float_repr combined_pricebook_df user_query with
  | Good search_results =>
      let shown :=
        if negb (empty search_results) then st_dataframe search_results
        else no_direct_matches in
      let '(gemini_answer, log) :=
        get_gemini_answer to_markdown generate_content user_query search_results in
      ([searching; st_subheader SearchResultsHeading; shown;
        st_subheader GeminiAnswerHeading]
         ++ map st_report log ++ [st_write gemini_answer] ++ page_bottom,
       Finished)
  | ReError => ([searching], Raised)
  | NotModelled => ([searching], Untraced)
  end.

(** One run of [app.py]. *)
Definition app (secret : option string) (user_query : string) (clicked : bool)
    : list element * ending :=
  match secret with
  | None => ([key_not_found], Stopped)
  | Some _ =>
      let '(combined_pricebook_df, log) := load_and_combine_data read_csv CSV_FILES in
      let loaded_page := page_top ++ map st_report log in
      if negb (empty combined_pricebook_df) then
        let widgets := search_widgets combined_pricebook_df in
        if clicked then
          if negb (String.eqb user_query "") then
            let '(shown, e) := search_and_answer combined_pricebook_df user_query in
            (loaded_page ++ widgets ++ shown, e)
          else (loaded_page ++ widgets ++ [enter_a_query] ++ page_bottom, Finished)
        else (loaded_page ++ widgets ++ page_bottom, Finished)
      else (loaded_page ++ [could_not_load] ++ page_bottom, Finished)
  end.

End Page.

(** ** Vocabulary of the statements *)

(** A query without any character that [re] reads as syntax. *)
Definition plain (q : string) : bool :=
  PyStr.all_chars (fun c => negb (PyRe.is_special c)) q.

(** A query that [strip] leaves empty. *)
Definition blank (q : string) : bool := PyStr.all_chars PyStr.isspace q.

(** The pattern [re.compile] builds for a plain query, on top of [acc]. *)
Fixpoint literal_onto (p : string) (acc : PyRe.regex) : PyRe.regex :=
  match p with
  | EmptyString => acc
  | String c p' => PyRe.Cat (PyRe.Lit c) (literal_onto p' acc)
  end.

Definition literal (p : string) : PyRe.regex := literal_onto p PyRe.Empty.

(** The items the parser has stacked after reading a plain query. *)
Fixpoint literal_items (p : string) (acc : list (PyRe.regex * PyRe.tag))
    : list (PyRe.regex * PyRe.tag) :=
  match p with
  | EmptyString => acc
  | String c p' => literal_items p' ((PyRe.Lit c, PyRe.Plain) :: acc)
  end.

(** What it means for [r] to match from one position to another: the
    relation the matcher [PyRe.run] computes. *)
Inductive matches : PyRe.regex -> PyRe.position -> PyRe.position -> Prop :=
| matches_empty p : matches PyRe.Empty p p
| matches_lit c bos s : matches (PyRe.Lit c) (bos, String c s) (false, s)
| matches_any c bos s :
    c <> "010"%char -> matches PyRe.AnyChar (bos, String c s) (false, s)
| matches_at_beginning s : matches PyRe.AtBeginning (true, s) (true, s)
| matches_at_end bos : matches PyRe.AtEnd (bos, "") (bos, "")
| matches_before_newline bos :
    matches PyRe.AtEnd (bos, String "010"%char "") (bos, String "010"%char "")
| matches_cat a b p q r :
    matches a p q -> matches b q r -> matches (PyRe.Cat a b) p r
| matches_left a b p q : matches a p q -> matches (PyRe.Branch a b) p q
| matches_right a b p q : matches b p q -> matches (PyRe.Branch a b) p q
| matches_repeat_stop a p : matches (PyRe.Repeat a) p p
| matches_repeat_more a p q r :
    matches a p q -> matches (PyRe.Repeat a) q r -> matches (PyRe.Repeat a) p r.

(** Some cell of [r], as a lowercased string, contains the lowercased
    query as a literal substring. *)
Definition cell_contains (float_repr : spec_float -> string) (df : DataFrame)
    (q : string) (r : row) : bool :=
  existsb (fun s => PyStr.contains (PyStr.lower s) (PyStr.lower q))
    (row_astype_str float_repr df r).

(** The frames [read_csv] delivers for [paths], in order. *)
Definition loaded (read_csv : string -> read_result) (paths : list string)
    : list DataFrame :=
  flat_map (fun p => match read_csv p with ReadOk df => [df] | _ => [] end) paths.

(** The reports of the sources that are skipped, in order. *)
Definition skip_reports (read_csv : string -> read_result) (paths : list string)
    : list report :=
  flat_map (fun p =>
    match read_csv p with
    | ReadOk _ => []
    | FileNotFound =>
        [st_warning ("File not found: " +:+ p +:+
           ". Please ensure all CSV files are in the same directory.")]
    | ReadFailed e => [st_error ("Error loading " +:+ p +:+ ": " +:+ e)]
    end) paths.

Definition is_warning (r : report) : bool :=
  match r with st_warning _ => true | st_error _ => false end.

Definition is_loaded (res : read_result) : bool :=
  match res with ReadOk _ => true | _ => false end.


(** What [concat] and [fillna] make of one aligned row of [frames]. *)
Definition conform (frames : list DataFrame) (r : row) : row :=
  let cols := union_columns frames in
  map (fillna_cell "")
    (cast_row (column_dtypes frames cols (flat_map (aligned_rows cols) frames)) r).

Definition sum_len (frames : list DataFrame) : nat :=
  fold_right (fun df n => (len df + n)%nat) 0%nat frames.

(** A query that starts with a repeat sign or a closing parenthesis. *)
Definition starts_badly (q : string) : bool :=
  match q with
  | String c _ =>
      match c with
      | "*"%char | "+"%char | "?"%char | ")"%char => true
      | _ => false
      end
  | EmptyString => false
  end.



Definition unread (read_csv : string -> read_result) (p : string) : bool :=
  negb (is_loaded (read_csv p)).

Definition is_output (e : element) : bool :=
  match e with
  | st_subheader _ | st_dataframe _ | st_write _ => true
  | _ => false
  end.




(** ** Fixtures of the examples *)

(** A float rendering for frames without finite non-zero floats. *)
Definition special_float_repr (x : spec_float) : string :=
  match x with
  | S754_nan => "nan"
  | S754_infinity false => "inf"
  | S754_infinity true => "-inf"
  | S754_zero false => "0.0"
  | S754_zero true => "-0.0"
  | S754_finite _ _ _ => ""
  end.

Definition catalog : DataFrame :=
  mkDataFrame ["name"; "price"]
    [[VStr "Endpoint Security"; VStr "100"];
     [VStr "Network Security"; VStr "250"]].

Definition helix : DataFrame :=
  mkDataFrame ["name"; "qty"] [[VStr "Helix"; VInt 5]; [VStr "Helix Pro"; VInt 6]].

Definition skyhigh : DataFrame :=
  mkDataFrame ["name"; "price"] [[VStr "Skyhigh"; NaN]].

Definition two_sheets (path : string) : read_result :=
  if String.eqb path "Trellix Helix.csv" then ReadOk helix
  else if String.eqb path "Skyhigh.csv" then ReadOk skyhigh
  else if String.eqb path "Broken.csv" then ReadFailed "No columns to parse from file"
  else FileNotFound.

Definition fifteen_rows : DataFrame :=
  mkDataFrame ["sku"] (map (fun n => [VInt (Z.of_nat n)]) (seq 1 15)).

Definition plain_markdown (df : DataFrame) : string :=
  String.concat nl (map (fun r => String.concat " | " (map (str_cell special_float_repr) r)) (rows df)).

Definition gemini_down (prompt : string) : string + string :=
  inr "503 Service Unavailable".

Definition gemini_echo (prompt : string) : string + string := inl prompt.

Definition headers_only : DataFrame := mkDataFrame ["name"; "price"] [].

Definition every_sheet_is (df : DataFrame) (path : string) : read_result := ReadOk df.

Definition failing_disk (path : string) : read_result :=
  if String.eqb path "Skyhigh.csv" then ReadFailed "Error tokenizing data"
  else FileNotFound.

Definition helix_more : DataFrame :=
  mkDataFrame ["sku"]
    (map (fun n => [VInt (Z.of_nat n)]) (seq 1 10 ++ seq 100 5)).

(** A stand-in for [re] on the character set [[e]]: the pattern is
    found where the letter e is. *)
Definition only_char_class_e (pat : string) : option (string -> bool) :=
  if String.eqb pat "[e]" then Some (fun s => PyStr.contains s "e") else None.


(** ** Python [str]: facts *)

Lemma rstrip_blank s : PyStr.rstrip s = "" <-> blank s = true.
Proof.
  unfold blank. induction s as [|c s IH]; simpl; [done|].
  destruct (PyStr.rstrip s) eqn:E.
  - destruct (PyStr.isspace c); simpl; [tauto|].
    split; [discriminate|discriminate].
  - split; [discriminate|].
    intros [_ H]%andb_prop. apply IH in H. discriminate.
Qed.

Lemma lstrip_blank s : blank s = true -> PyStr.lstrip s = "".
Proof.
  unfold blank. induction s as [|c s IH]; simpl; [done|].
  intros [Hc Hs]%andb_prop. rewrite Hc. auto.
Qed.

Lemma lstrip_shape s :
  PyStr.lstrip s = "" \/
  exists c t, PyStr.lstrip s = String c t /\ PyStr.isspace c = false.
Proof.
  induction s as [|c s IH]; simpl; [by left|].
  destruct (PyStr.isspace c) eqn:E; [done|].
  right. by exists c, s.
Qed.

Lemma lstrip_empty_blank s : PyStr.lstrip s = "" -> blank s = true.
Proof.
  unfold blank. induction s as [|c s IH]; simpl; [done|].
  destruct (PyStr.isspace c); simpl; [done|discriminate].
Qed.

(** [q.strip() == ""] holds exactly for the queries made of white space. *)
Lemma strip_empty_iff q : PyStr.strip q = "" <-> blank q = true.
Proof.
  unfold PyStr.strip. split.
  - intros H. apply rstrip_blank in H.
    destruct (lstrip_shape q) as [E|(c & t & E & Hc)].
    + by apply lstrip_empty_blank.
    + rewrite E in H. unfold blank in H. simpl in H. rewrite Hc in H. discriminate.
  - intros H. by rewrite (lstrip_blank _ H).
Qed.

Lemma startswith_iff s p :
  PyStr.startswith s p = true <-> exists post, s = p +:+ post.
Proof.
  revert s. induction p as [|a p IH]; intros s; simpl.
  - split; [intros _; exists s; reflexivity|reflexivity].
  - destruct s as [|b s].
    + split; [discriminate|]. intros [post H]. discriminate.
    + rewrite andb_true_iff, IH. split.
      * intros [Hab [post ->]]. apply Ascii.eqb_eq in Hab as ->. by exists post.
      * intros [post H]. injection H as -> ->. split; [apply Ascii.eqb_refl|by exists post].
Qed.

(** [contains s sub] is Python's [sub in s]. *)
Lemma contains_iff s sub :
  PyStr.contains s sub = true <-> exists pre post, s = pre +:+ sub +:+ post.
Proof.
  induction s as [|c s IH].
  - simpl. rewrite orb_false_r, startswith_iff. split.
    + intros [post H]. by exists "", post.
    + intros (pre & post & H). destruct pre; [by exists post|discriminate].
  - cbn [PyStr.contains]. rewrite orb_true_iff, startswith_iff, IH. split.
    + intros [[post H]|(pre & post & ->)].
      * by exists "", post.
      * by exists (String c pre), post.
    + intros (pre & post & H). destruct pre as [|c' pre].
      * left. by exists post.
      * right. injection H as -> ->. by exists pre, post.
Qed.

(** ** Python [re]: the matcher computes the matching relation *)

Lemma star_loop_sound a body fuel p q :
  (forall x y, In y (body x) -> matches a x y) ->
  In q (PyRe.star_loop body fuel p) -> matches (PyRe.Repeat a) p q.
Proof.
  intros Hbody. revert p. induction fuel as [|fuel IH]; intros p; simpl.
  - intros [<-|[]]. constructor.
  - intros [<-|H]; [constructor|].
    apply in_flat_map in H as (x & Hx & Hq). apply filter_In in Hx as [Hx _].
    eapply matches_repeat_more; eauto.
Qed.

Lemma run_sound r p q : In q (PyRe.run r p) -> matches r p q.
Proof.
  revert p q. induction r as [|c| | | |a IHa b IHb|a IHa b IHb|a IHa];
    intros [bos s] q; simpl.
  - intros [<-|[]]. constructor.
  - destruct s as [|c' s]; [intros []|].
    destruct (Ascii.eqb c c') eqn:E; [|intros []].
    apply Ascii.eqb_eq in E as <-. intros [<-|[]]. constructor.
  - destruct s as [|c' s]; [intros []|].
    destruct (Ascii.eqb c' "010") eqn:E; [intros []|].
    apply Ascii.eqb_neq in E. intros [<-|[]]. by constructor.
  - destruct bos; [|intros []]. intros [<-|[]]. constructor.
  - destruct s as [|c' [|c'' s]].
    + intros [<-|[]]. constructor.
    + destruct (Ascii.eqb c' "010") eqn:E; [|intros []].
      apply Ascii.eqb_eq in E as ->. intros [<-|[]]. constructor.
    + intros [].
  - intros H. apply in_flat_map in H as (x & Hx & Hq).
    eapply matches_cat; eauto.
  - intros H. apply in_app_iff in H as [H|H];
      [apply matches_left|apply matches_right]; auto.
  - apply star_loop_sound. auto.
Qed.

(** A match ends where it started or further on in the text. *)
Lemma matches_shrinks r p q :
  matches r p q -> q = p \/ (String.length (snd q) < String.length (snd p))%nat.
Proof.
  induction 1; simpl in *; auto; try (right; simpl; lia).
  - destruct IHmatches1 as [->|H1], IHmatches2 as [->|H2]; auto; right; lia.
  - destruct IHmatches1 as [->|H1], IHmatches2 as [->|H2]; auto; right; lia.
Qed.

Lemma star_loop_mono body f1 f2 p q :
  (f1 <= f2)%nat -> In q (PyRe.star_loop body f1 p) -> In q (PyRe.star_loop body f2 p).
Proof.
  revert f2 p. induction f1 as [|f1 IH]; intros f2 p Hle.
  - simpl. intros [<-|[]]. destruct f2; left; reflexivity.
  - destruct f2 as [|f2]; [lia|]. simpl. intros [<-|H]; [by left|right].
    apply in_flat_map in H as (x & Hx & Hq). apply in_flat_map.
    exists x. split; [done|]. apply IH; [lia|done].
Qed.

(** The fuel of [Repeat], the length of the text that is left, is enough:
    every match is found. *)
Lemma run_complete r p q : matches r p q -> In q (PyRe.run r p).
Proof.
  induction 1 as [p|c bos s|c bos s Hc|s|bos|bos|a b p q r _ IH1 _ IH2
                  |a b p q _ IH|a b p q _ IH|a p|a p q r Hpq IH1 _ IH2]; simpl.
  - by left.
  - rewrite Ascii.eqb_refl. by left.
  - apply Ascii.eqb_neq in Hc. rewrite Hc. by left.
  - by left.
  - by left.
  - by left.
  - apply in_flat_map. eauto.
  - apply in_app_iff. auto.
  - apply in_app_iff. auto.
  - destruct (String.length (snd p)); left; reflexivity.
  - simpl in IH2. destruct (matches_shrinks _ _ _ Hpq) as [->|Hlt]; [done|].
    destruct (String.length (snd p)) as [|fuel] eqn:E; [lia|]. simpl. right.
    apply in_flat_map. exists q. split.
    + apply filter_In. split; [done|]. unfold PyRe.progress.
      apply Nat.ltb_lt. lia.
    + eapply star_loop_mono; [|exact IH2]. lia.
Qed.

Lemma matches_at_iff r p : PyRe.matches_at r p = true <-> exists q, matches r p q.
Proof.
  unfold PyRe.matches_at. split.
  - destruct (PyRe.run r p) as [|q l] eqn:E; [discriminate|].
    intros _. exists q. apply run_sound. rewrite E. by left.
  - intros [q H%run_complete]. by destruct (PyRe.run r p).
Qed.

Lemma search_from_iff r bos s :
  PyRe.search_from r bos s = true <->
  exists pre rest q,
    s = pre +:+ rest
    /\ matches r (match pre with "" => bos | _ => false end, rest) q.
Proof.
  revert bos. induction s as [|c s IH]; intros bos; simpl.
  - rewrite orb_false_r, matches_at_iff. split.
    + intros [q H]. by exists "", "", q.
    + intros (pre & rest & q & E & H). destruct pre; [|discriminate].
      cbv [String.append] in E. subst rest. by exists q.
  - rewrite orb_true_iff, matches_at_iff, IH. split.
    + intros [[q H]|(pre & rest & q & -> & H)].
      * by exists "", (String c s), q.
      * exists (String c pre), rest, q. split; [done|]. by destruct pre.
    + intros (pre & rest & q & E & H). destruct pre as [|c' pre].
      * cbv [String.append] in E. subst rest. left. by exists q.
      * injection E as -> ->. right. exists pre, rest, q. split; [done|].
        by destruct pre.
Qed.

(** [regex.search(s)] finds a match exactly when [r] matches somewhere in
    [s]; [^] can only match before the first character. *)
Lemma search_iff r s :
  PyRe.search r s = true <->
  exists pre rest q,
    s = pre +:+ rest
    /\ matches r (match pre with "" => true | _ => false end, rest) q.
Proof. apply search_from_iff. Qed.

(** ** Python [re]: a plain pattern is searched for literally *)

Ltac each_char c := destruct c as [[] [] [] [] [] [] [] []].

Lemma lower_char_not_special c :
  PyRe.is_special c = false -> PyRe.is_special (PyStr.lower_char c) = false.
Proof. each_char c; vm_compute; congruence. Qed.

Lemma lower_plain q : plain q = true -> plain (PyStr.lower q) = true.
Proof.
  unfold plain. induction q as [|c q IH]; simpl; [done|].
  intros [Hc Hq]%andb_prop. apply negb_true_iff in Hc.
  by rewrite (lower_char_not_special _ Hc), IH.
Qed.

Lemma step_plain c st :
  PyRe.is_special c = false -> PyRe.esc st = false ->
  PyRe.step c st = PyRe.Good (PyRe.push (PyRe.Lit c, PyRe.Plain) st).
Proof.
  intros Hc He. unfold PyRe.step. rewrite He.
  revert Hc. each_char c; vm_compute; congruence.
Qed.

Lemma parse_loop_plain p st :
  plain p = true -> PyRe.esc st = false ->
  PyRe.parse_loop p st =
  PyRe.Good (PyRe.PState (PyRe.outer st)
               (PyRe.Frame (PyRe.alts (PyRe.cur st))
                  (literal_items p (PyRe.items (PyRe.cur st)))) false).
Proof.
  unfold plain. revert st. induction p as [|c p IH]; intros st Hp He; simpl.
  - destruct st as [o [a i] e]. simpl in *. by subst.
  - simpl in Hp. apply andb_prop in Hp as [Hc Hp]. apply negb_true_iff in Hc.
    rewrite (step_plain _ _ Hc He). by rewrite IH.
Qed.

Lemma mk_cat_literal_items p acc e :
  fold_left (fun a it => PyRe.Cat (fst it) a) (literal_items p acc) e =
  fold_left (fun a it => PyRe.Cat (fst it) a) acc (literal_onto p e).
Proof.
  revert acc. induction p as [|c p IH]; intros acc; simpl; [done|].
  by rewrite IH.
Qed.

(** [re.compile] accepts every plain pattern and reads it as the sequence
    of its characters. *)
Lemma compile_plain p : plain p = true -> PyRe.compile p = PyRe.Good (literal p).
Proof.
  intros Hp. unfold PyRe.compile.
  rewrite (parse_loop_plain p (PyRe.PState [] (PyRe.Frame [] []) false) Hp eq_refl). simpl.
  unfold PyRe.close, PyRe.mk_cat. simpl. by rewrite mk_cat_literal_items.
Qed.

Lemma matches_at_literal p bos s :
  PyRe.matches_at (literal p) (bos, s) = PyStr.startswith s p.
Proof.
  unfold literal, PyRe.matches_at.
  revert bos s. induction p as [|c p IH]; intros bos s; simpl; [done|].
  destruct s as [|c' s]; simpl; [done|].
  rewrite Ascii.eqb_sym. destruct (Ascii.eqb c' c) eqn:E; simpl; [|done].
  rewrite app_nil_r. apply IH.
Qed.

Lemma search_from_literal p bos s :
  PyRe.search_from (literal p) bos s = PyStr.contains s p.
Proof.
  revert bos. induction s as [|c s IH]; intros bos; simpl.
  - by rewrite matches_at_literal.
  - by rewrite matches_at_literal, IH.
Qed.

Lemma search_literal p s : PyRe.search (literal p) s = PyStr.contains s p.
Proof. apply search_from_literal. Qed.

(** ** The row filter: facts *)

Section FilterFacts.

Variable float_repr : spec_float -> string.

Lemma str_contains_any_plain cells pat :
  plain pat = true ->
  str_contains_any cells pat =
  Good (existsb (fun s => PyStr.contains s pat) cells).
Proof.
  intros Hp. unfold str_contains_any. rewrite (compile_plain _ Hp).
  f_equal. induction cells as [|s cells IH]; simpl; [done|].
  by rewrite search_literal, IH.
Qed.

Lemma row_matches_plain df q r :
  plain q = true ->
  row_matches float_repr df (PyStr.lower q) r = Good (cell_contains float_repr df q r).
Proof.
  intros Hp. unfold row_matches, cell_contains.
  rewrite (str_contains_any_plain _ _ (lower_plain _ Hp)). f_equal.
  induction (row_astype_str float_repr df r) as [|s l IH]; simpl; [done|].
  by rewrite IH.
Qed.

Lemma apply_rows_total (f : row -> verdict bool) (g : row -> bool) rs :
  (forall r, f r = Good (g r)) -> apply_rows f rs = Good (map g rs).
Proof.
  intros Hf. induction rs as [|r rs IH]; simpl; [done|].
  by rewrite Hf, IH.
Qed.

Lemma apply_rows_length f rs mask :
  apply_rows f rs = Good mask -> length mask = length rs.
Proof.
  revert mask. induction rs as [|r rs IH]; intros mask; simpl.
  - by intros [= <-].
  - destruct (f r); [|done|done]. destruct (apply_rows f rs); [|done|done].
    intros [= <-]. simpl. f_equal. by apply IH.
Qed.

Lemma boolean_index_map (g : row -> bool) cols rs :
  boolean_index (mkDataFrame cols rs) (map g rs) = mkDataFrame cols (List.filter g rs).
Proof.
  unfold boolean_index. simpl. f_equal.
  induction rs as [|r rs IH]; simpl; [done|].
  destruct (g r); simpl; by rewrite IH.
Qed.

Lemma boolean_index_sublist df mask :
  rows (boolean_index df mask) `sublist_of` rows df.
Proof.
  unfold boolean_index. simpl. generalize (rows df). intros rs.
  revert mask. induction rs as [|r rs IH]; intros mask; simpl; [constructor|].
  destruct mask as [|b mask]; simpl; [apply sublist_nil_l|].
  destruct b; simpl; [apply sublist_skip|apply sublist_cons]; apply IH.
Qed.

(** For a plain query that is not blank the filter returns, and it keeps
    exactly the rows with a cell that contains the query. *)
Lemma search_dataframe_plain df q :
  blank q = false -> plain q = true ->
  search_dataframe float_repr df q =
  Good (match rows df with
        | [] => empty_frame
        | _ :: _ =>
            mkDataFrame (columns df)
              (List.filter (cell_contains float_repr df q) (rows df))
        end).
Proof.
  intros Hb Hp. unfold search_dataframe.
  destruct (String.eqb (PyStr.strip q) "") eqn:E.
  - apply String.eqb_eq, strip_empty_iff in E. congruence.
  - destruct (rows df) as [|r0 rs0] eqn:Er.
    + unfold filter_without_rows. by rewrite (compile_plain _ (lower_plain _ Hp)).
    + rewrite <- Er. rewrite (apply_rows_total _ (cell_contains float_repr df q)).
      * destruct df as [cols rs]. simpl. by rewrite boolean_index_map.
      * intros r. by apply row_matches_plain.
Qed.

End FilterFacts.

(** *** The filter on the two-row catalogue *)

Example search_security :
  search_dataframe special_float_repr catalog "security" = Good catalog.
Proof. reflexivity. Qed.

Example search_100 :
  search_dataframe special_float_repr catalog "100" =
  Good (mkDataFrame ["name"; "price"] [[VStr "Endpoint Security"; VStr "100"]]).
Proof. reflexivity. Qed.

Example search_zzz :
  search_dataframe special_float_repr catalog "zzz" =
  Good (mkDataFrame ["name"; "price"] []).
Proof. reflexivity. Qed.

(** White space around a query that is not blank is matched as it is. *)
Example search_keeps_query_whitespace :
  search_dataframe special_float_repr catalog " security" = Good catalog
  /\ search_dataframe special_float_repr catalog "security " =
     Good (mkDataFrame ["name"; "price"] []).
Proof. split; reflexivity. Qed.

(** ** The row filter: the claims *)

(** C1 (as the claim states it, refuted): the query [" "] is a literal
    substring of the cell ["Endpoint Security"], yet the filter answers it
    with the empty frame: the row meets the containment condition and is
    not in the result. *)
Lemma search_dataframe_skips_blank_query :
  search_dataframe special_float_repr catalog " " = Good empty_frame
  /\ In [VStr "Endpoint Security"; VStr "100"] (rows catalog)
  /\ (exists s pre post,
        In s (row_astype_str special_float_repr catalog
                [VStr "Endpoint Security"; VStr "100"])
        /\ PyStr.lower s = pre +:+ PyStr.lower " " +:+ post)
  /\ ~ In [VStr "Endpoint Security"; VStr "100"] (rows empty_frame).
Proof.
  split; [reflexivity|]. split; [left; reflexivity|]. split.
  - exists "Endpoint Security", "endpoint", "security".
    split; [left; reflexivity|reflexivity].
  - intros [].
Qed.

(** C1 (amended): for every table and every query that is not blank and has
    no character with a meaning in regular expressions, the filter returns a
    frame, and a row is in it if and only if it is a row of the table and
    one of its cells, converted to its string form and lowercased, contains
    the lowercased query as a literal substring. *)
Theorem search_dataframe_literal_filter
    (float_repr : spec_float -> string) (df : DataFrame) (q : string) :
  blank q = false -> plain q = true ->
  exists res,
    search_dataframe float_repr df q = Good res
    /\ forall r,
         In r (rows res) <->
         In r (rows df)
         /\ exists s pre post,
              In s (row_astype_str float_repr df r)
              /\ PyStr.lower s = pre +:+ PyStr.lower q +:+ post.
Proof.
  intros Hb Hp. eexists. split; [by apply search_dataframe_plain|].
  intros r. destruct (rows df) as [|r0 rs0] eqn:Er; [simpl; tauto|].
  cbn [rows]. rewrite <- Er, filter_In. unfold cell_contains.
  rewrite existsb_exists. split.
  - intros [Hr (s & Hs & Hc)]. split; [done|].
    apply contains_iff in Hc as (pre & post & Hc). by exists s, pre, post.
  - intros [Hr (s & pre & post & Hs & Hc)]. split; [done|].
    exists s. split; [done|]. apply contains_iff. by exists pre, post.
Qed.

Lemma search_dataframe_literal_filter_witness :
  blank "Security" = false /\ plain "Security" = true
  /\ exists res,
       search_dataframe special_float_repr catalog "Security" = Good res
       /\ forall r,
            In r (rows res) <->
            In r (rows catalog)
            /\ exists s pre post,
                 In s (row_astype_str special_float_repr catalog r)
                 /\ PyStr.lower s = pre +:+ PyStr.lower "Security" +:+ post.
Proof.
  split; [reflexivity|]. split; [reflexivity|].
  apply (search_dataframe_literal_filter special_float_repr catalog "Security");
    reflexivity.
Defined.

(** C3: for every table, a query that is empty or made of white space only
    is answered with the empty frame: no row, no error. *)
Theorem search_dataframe_blank_query
    (float_repr : spec_float -> string) (df : DataFrame) (q : string) :
  blank q = true -> search_dataframe float_repr df q = Good empty_frame.
Proof.
  intros Hb. unfold search_dataframe.
  apply strip_empty_iff in Hb. by rewrite Hb.
Qed.

Lemma search_dataframe_blank_query_witness :
  (blank "" = true /\ search_dataframe special_float_repr catalog "" = Good empty_frame)
  /\ (blank "   " = true
      /\ search_dataframe special_float_repr catalog "   " = Good empty_frame).
Proof.
  split; (split; [reflexivity|]).
  - apply (search_dataframe_blank_query special_float_repr catalog ""). reflexivity.
  - apply (search_dataframe_blank_query special_float_repr catalog "   "). reflexivity.
Defined.

(** C10 (the filter at the failing inputs): the query ["."] is compiled as
    a regular expression, so both rows are kept although no cell contains a
    full stop; the query ["(former"] makes [re.compile] raise. *)
Lemma search_dataframe_reads_query_as_regex :
  blank "." = false
  /\ search_dataframe special_float_repr catalog "." = Good catalog
  /\ forallb (fun r => negb (cell_contains special_float_repr catalog "." r))
       (rows catalog) = true
  /\ blank "(former" = false
  /\ search_dataframe special_float_repr catalog "(former" = ReError.
Proof. repeat split; reflexivity. Qed.

(** ** The loader: facts *)

Section LoaderFacts.

Variable read_csv : string -> read_result.

Lemma load_loop_spec paths all_data log :
  load_loop read_csv paths all_data log =
  (all_data ++ loaded read_csv paths, log ++ skip_reports read_csv paths).
Proof.
  revert all_data log. induction paths as [|p paths IH]; intros all_data log.
  - simpl. by rewrite !app_nil_r.
  - unfold loaded, skip_reports in *. simpl.
    destruct (read_csv p) as [df| |e]; rewrite IH; simpl;
      by rewrite <- ?app_assoc.
Qed.

(** The loader, in terms of the frames that were read. *)
Lemma load_and_combine_data_spec paths :
  load_and_combine_data read_csv paths =
  match loaded read_csv paths with
  | [] => (empty_frame, skip_reports read_csv paths ++ [no_data_loaded])
  | _ :: _ => (fillna "" (concat (loaded read_csv paths)), skip_reports read_csv paths)
  end.
Proof.
  unfold load_and_combine_data. rewrite load_loop_spec. simpl.
  by destruct (loaded read_csv paths).
Qed.

Lemma loaded_app l1 l2 :
  loaded read_csv (l1 ++ l2) = loaded read_csv l1 ++ loaded read_csv l2.
Proof. unfold loaded. apply flat_map_app. Qed.

Lemma skip_reports_app l1 l2 :
  skip_reports read_csv (l1 ++ l2) = skip_reports read_csv l1 ++ skip_reports read_csv l2.
Proof. unfold skip_reports. apply flat_map_app. Qed.


Lemma loaded_none paths :
  Forall (fun p => is_loaded (read_csv p) = false) paths <->
  loaded read_csv paths = [].
Proof.
  unfold loaded. induction paths as [|p paths IH]; simpl.
  - split; [done|constructor].
  - rewrite Forall_cons_iff, IH.
    destruct (read_csv p); simpl; split; try done; intros []; done.
Qed.


Lemma no_data_loaded_not_skipped paths :
  ~ In no_data_loaded (skip_reports read_csv paths).
Proof.
  unfold skip_reports. induction paths as [|p paths IH]; simpl; [tauto|].
  rewrite in_app_iff. intros [H|H]; [|tauto].
  destruct (read_csv p); simpl in H; [done| |];
    destruct H as [H|[]]; discriminate.
Qed.

End LoaderFacts.

Lemma map_flat_map {A B C} (f : B -> C) (g : A -> list B) l :
  map f (flat_map g l) = flat_map (fun x => map f (g x)) l.
Proof.
  induction l as [|x l IH]; simpl; [done|]. by rewrite map_app, IH.
Qed.

Lemma length_aligned frames cols :
  length (flat_map (aligned_rows cols) frames) = sum_len frames.
Proof.
  induction frames as [|df frames IH]; simpl; [done|].
  rewrite length_app, IH. unfold aligned_rows, len. by rewrite length_map.
Qed.

(** The rows [concat] and [fillna] produce: every source row once, laid out
    under the united columns, in the order of the frames. *)
Lemma rows_fillna_concat frames :
  rows (fillna "" (concat frames)) =
  flat_map (fun df =>
    map (fun r => conform frames (reindex (union_columns frames) (columns df) r))
      (rows df)) frames.
Proof.
  unfold fillna, concat. simpl. rewrite map_map.
  rewrite (map_flat_map _ (aligned_rows (union_columns frames))).
  apply flat_map_ext. intros df. unfold aligned_rows. rewrite map_map.
  reflexivity.
Qed.


(** *** Alignment keeps every cell under its column *)

Lemma in_add_column acc name x :
  In x (add_column acc name) <-> In x acc \/ x = name.
Proof.
  unfold add_column. destruct (existsb (String.eqb name) acc) eqn:E.
  - apply existsb_exists in E as (y & Hy & E). apply String.eqb_eq in E as <-.
    split; [by left|]. by intros [H| ->].
  - rewrite in_app_iff. simpl. intuition (subst; auto).
Qed.

Lemma in_add_columns names acc x :
  In x (fold_left add_column names acc) <-> In x acc \/ In x names.
Proof.
  revert acc. induction names as [|n names IH]; intros acc; simpl.
  - split; [by left|]. by intros [H|[]].
  - rewrite IH, in_add_column. split; intros H; intuition (subst; auto).
Qed.

Lemma in_union_columns_from frames acc x :
  In x (fold_left (fun a df => fold_left add_column (columns df) a) frames acc) <->
  In x acc \/ exists df, In df frames /\ In x (columns df).
Proof.
  revert acc. induction frames as [|df frames IH]; intros acc; simpl.
  - split; [by left|]. by intros [H|(df & [] & _)].
  - rewrite IH, in_add_columns. split.
    + intros [[H|H]|(df' & H1 & H2)]; [by left| |]; right.
      * exists df. auto.
      * exists df'. auto.
    + intros [H|(df' & [<-|H1] & H2)]; [by left; left|by left; right|].
      right. by exists df'.
Qed.

(** The united columns are the labels of all frames. *)
Lemma in_union_columns frames x :
  In x (union_columns frames) <-> exists df, In df frames /\ In x (columns df).
Proof.
  unfold union_columns. rewrite in_union_columns_from. simpl.
  split; [by intros [[]|H]|by right].
Qed.

Lemma get_reindex cols names r name :
  In name cols -> get name cols (reindex cols names r) = get name names r.
Proof.
  unfold reindex. induction cols as [|c cols IH]; simpl; [done|].
  intros H. destruct (String.eqb c name) eqn:E.
  - by apply String.eqb_eq in E as ->.
  - apply String.eqb_neq in E. destruct H as [H|H]; [done|auto].
Qed.

(** In the row laid out under the united columns, a source cell is found
    under the label it had in its source. *)
Lemma aligned_cell frames df r name :
  In df frames -> In name (columns df) ->
  get name (union_columns frames) (reindex (union_columns frames) (columns df) r) =
  get name (columns df) r.
Proof.
  intros Hdf Hname. apply get_reindex. apply in_union_columns. by exists df.
Qed.


(** ** The loader: the claims *)




(** C8: when no source of the list is read successfully (the empty list
    included), the loader returns the empty frame and ends its reports with
    the error "No data loaded ..."; and that error is reported in no other
    case, so it tells "nothing was loaded" apart from an empty result of a
    query. *)
Theorem load_nothing_is_reported
    (read_csv : string -> read_result) (paths : list string) :
  Forall (fun p => is_loaded (read_csv p) = false) paths ->
  load_and_combine_data read_csv paths =
    (empty_frame, skip_reports read_csv paths ++ [no_data_loaded])
  /\ forall paths',
       In no_data_loaded (snd (load_and_combine_data read_csv paths')) ->
       Forall (fun p => is_loaded (read_csv p) = false) paths'.
Proof.
  intros H. split.
  - rewrite load_and_combine_data_spec. apply loaded_none in H. by rewrite H.
  - intros paths'. rewrite load_and_combine_data_spec.
    destruct (loaded read_csv paths') eqn:E; simpl.
    + intros _. by apply loaded_none.
    + intros Hin. by apply no_data_loaded_not_skipped in Hin.
Qed.

(** In a directory with none of the sheets, every sheet gets its warning
    and the run ends with the error. *)
Example load_from_empty_directory :
  fst (load_and_combine_data (fun _ => FileNotFound) CSV_FILES) = empty_frame
  /\ length (List.filter is_warning
               (snd (load_and_combine_data (fun _ => FileNotFound) CSV_FILES))) = 17%nat
  /\ last (snd (load_and_combine_data (fun _ => FileNotFound) CSV_FILES)) =
     Some no_data_loaded.
Proof. repeat split; reflexivity. Qed.

Lemma load_nothing_is_reported_witness :
  Forall (fun p => is_loaded (two_sheets p) = false) ["Trellix SIEM.csv"; "Broken.csv"]
  /\ load_and_combine_data two_sheets ["Trellix SIEM.csv"; "Broken.csv"] =
       (empty_frame,
        skip_reports two_sheets ["Trellix SIEM.csv"; "Broken.csv"] ++ [no_data_loaded])
  /\ forall paths',
       In no_data_loaded (snd (load_and_combine_data two_sheets paths')) ->
       Forall (fun p => is_loaded (two_sheets p) = false) paths'.
Proof.
  assert (H : Forall (fun p => is_loaded (two_sheets p) = false)
                ["Trellix SIEM.csv"; "Broken.csv"])
    by (repeat constructor).
  split; [exact H|].
  exact (load_nothing_is_reported two_sheets _ H).
Defined.

(** ** The summarisation step: the claims *)

Section SummaryFacts.

Variable to_markdown : DataFrame -> string.

Lemma results_str_over df :
  (max_rows_for_gemini < len df)%nat ->
  results_str to_markdown df =
  to_markdown (head max_rows_for_gemini df) +:+ omitted_note (len df).
Proof.
  intros H. unfold results_str.
  by destruct (Nat.ltb_spec max_rows_for_gemini (len df)); [|lia].
Qed.

Lemma results_str_within df :
  (len df <= max_rows_for_gemini)%nat ->
  results_str to_markdown df = to_markdown df.
Proof.
  intros H. unfold results_str.
  by destruct (Nat.ltb_spec max_rows_for_gemini (len df)); [lia|].
Qed.

End SummaryFacts.

(** C4: the summarisation step hands the collaborator one prompt.  For a
    Match Set with more than 10 rows the prompt carries the rendering of
    exactly the first 10 rows, followed by a note that counts the rows left
    out (15 rows: the first 10 and "... (and 5 more results not shown due
    to length)"); with 1 to 10 rows it carries the rendering of all rows
    and no note; with no row there is nothing to render and no note.  (A
    Match Set has the columns of the table, at least one.) *)
Theorem summary_forwards_at_most_ten_rows
    (to_markdown : DataFrame -> string)
    (generate_content : string -> string + string)
    (query : string) (df : DataFrame) :
  columns df <> [] ->
  get_gemini_answer to_markdown generate_content query df =
    match generate_content (make_prompt to_markdown query df) with
    | inl text => (text, [])
    | inr e => (apology, [st_error ("Error communicating with Gemini API: " +:+ e)])
    end
  /\ ((10 < len df)%nat ->
      make_prompt to_markdown query df =
        prompt_head query
          +:+ (to_markdown (head 10 df) +:+ nl +:+ "... (and "
                 +:+ PyStr.str_int (Z.of_nat (len df) - 10)
                 +:+ " more results not shown due to length)")
          +:+ prompt_tail
      /\ rows (head 10 df) = firstn 10 (rows df)
      /\ len (head 10 df) = 10%nat)
  /\ (len df = 15%nat ->
      make_prompt to_markdown query df =
        prompt_head query
          +:+ (to_markdown (head 10 df) +:+ nl
                 +:+ "... (and 5 more results not shown due to length)")
          +:+ prompt_tail)
  /\ ((0 < len df <= 10)%nat ->
      make_prompt to_markdown query df =
        prompt_head query +:+ to_markdown df +:+ prompt_tail)
  /\ (len df = 0%nat ->
      make_prompt to_markdown query df =
        "The user searched for '" +:+ query +:+
        "' but no relevant data was found in the pricebook. Please provide a helpful response indicating that no matching items were found.").
Proof.
  intros Hc.
  assert (He : (0 < len df)%nat -> empty df = false).
  { intros H. unfold empty, len in *.
    destruct (rows df); [simpl in H; lia|].
    destruct (columns df); [done|reflexivity]. }
  split; [reflexivity|]. split; [|split; [|split]].
  - intros H. unfold make_prompt. rewrite He by lia.
    rewrite results_str_over by (unfold max_rows_for_gemini; lia).
    split; [reflexivity|]. unfold head, len in *. simpl. split; [done|].
    rewrite length_firstn. lia.
  - intros H. unfold make_prompt. rewrite He by lia.
    rewrite results_str_over by (unfold max_rows_for_gemini; lia).
    unfold omitted_note. by rewrite H.
  - intros H. unfold make_prompt. rewrite He by lia.
    by rewrite results_str_within by (unfold max_rows_for_gemini; lia).
  - intros H. unfold make_prompt, empty. unfold len in H. by rewrite H.
Qed.

Lemma summary_forwards_at_most_ten_rows_witness :
  columns fifteen_rows <> []
  /\ (10 < len fifteen_rows)%nat
  /\ len fifteen_rows = 15%nat
  /\ make_prompt plain_markdown "helix" fifteen_rows =
       prompt_head "helix"
         +:+ (plain_markdown (head 10 fifteen_rows) +:+ nl
                +:+ "... (and 5 more results not shown due to length)")
         +:+ prompt_tail
  /\ rows (head 10 fifteen_rows) = firstn 10 (rows fifteen_rows)
  /\ len (head 10 fifteen_rows) = 10%nat
  /\ ((0 < len (head 10 fifteen_rows) <= 10)%nat ->
      make_prompt plain_markdown "helix" (head 10 fifteen_rows) =
        prompt_head "helix" +:+ plain_markdown (head 10 fifteen_rows) +:+ prompt_tail).
Proof.
  assert (Hc : columns fifteen_rows <> []) by discriminate.
  assert (Hlt : (10 < len fifteen_rows)%nat) by (vm_compute; lia).
  assert (H15 : len fifteen_rows = 15%nat) by reflexivity.
  destruct (summary_forwards_at_most_ten_rows plain_markdown gemini_echo
              "helix" fifteen_rows Hc) as (_ & Hover & Hfifteen & _).
  destruct (Hover Hlt) as (_ & Hrows & Hlen).
  destruct (summary_forwards_at_most_ten_rows plain_markdown gemini_echo
              "helix" (head 10 fifteen_rows) Hc) as (_ & _ & _ & Hwithin & _).
  exact (conj Hc (conj Hlt (conj H15 (conj (Hfifteen H15)
           (conj Hrows (conj Hlen Hwithin)))))).
Defined.

(** C9: whenever the call of the collaborator fails, the summarisation step
    returns the fixed apology and reports the failure as an error; it
    raises nothing. *)
Theorem summary_falls_back_on_failure
    (to_markdown : DataFrame -> string)
    (generate_content : string -> string + string)
    (query : string) (df : DataFrame) (e : string) :
  generate_content (make_prompt to_markdown query df) = inr e ->
  get_gemini_answer to_markdown generate_content query df =
    ("Sorry, I couldn't get an answer from Gemini at this moment.",
     [st_error ("Error communicating with Gemini API: " +:+ e)]).
Proof. intros H. unfold get_gemini_answer. by rewrite H. Qed.

Lemma summary_falls_back_on_failure_witness :
  gemini_down (make_prompt plain_markdown "helix price" catalog) =
    inr "503 Service Unavailable"
  /\ get_gemini_answer plain_markdown gemini_down "helix price" catalog =
       ("Sorry, I couldn't get an answer from Gemini at this moment.",
        [st_error ("Error communicating with Gemini API: " +:+ "503 Service Unavailable")]).
Proof.
  split; [reflexivity|].
  apply (summary_falls_back_on_failure plain_markdown gemini_down "helix price" catalog).
  reflexivity.
Defined.

(** ** Further properties of the row filter *)

Lemma append_nil_l (b : string) : "" +:+ b = b.
Proof. reflexivity. Qed.

Lemma append_cons c (a b : string) : String c a +:+ b = String c (a +:+ b).
Proof. reflexivity. Qed.

Lemma append_assoc (a b c : string) : (a +:+ b) +:+ c = a +:+ (b +:+ c).
Proof.
  induction a as [|x a IH]; [reflexivity|].
  by rewrite !append_cons, IH.
Qed.

Lemma blank_app a b : blank (a +:+ b) = blank a && blank b.
Proof.
  unfold blank. induction a as [|x a IH]; [reflexivity|].
  rewrite append_cons. simpl. by rewrite IH, andb_assoc.
Qed.

Lemma isspace_lower_char c : PyStr.isspace (PyStr.lower_char c) = PyStr.isspace c.
Proof. each_char c; reflexivity. Qed.

Lemma blank_lower q : blank (PyStr.lower q) = blank q.
Proof.
  unfold blank. induction q as [|c q IH]; simpl; [done|].
  by rewrite isspace_lower_char, IH.
Qed.

Lemma strip_eqb q : String.eqb (PyStr.strip q) "" = blank q.
Proof.
  destruct (blank q) eqn:E.
  - apply strip_empty_iff in E. by rewrite E.
  - apply String.eqb_neq. intros H. apply strip_empty_iff in H. congruence.
Qed.

Lemma contains_trans s a b :
  PyStr.contains s a = true -> PyStr.contains a b = true -> PyStr.contains s b = true.
Proof.
  rewrite !contains_iff. intros (p1 & q1 & ->) (p2 & q2 & ->).
  exists (p1 +:+ p2), (q2 +:+ q1). by rewrite !append_assoc.
Qed.

Lemma filter_sublist_imp {A} (f g : A -> bool) l :
  (forall x, f x = true -> g x = true) ->
  List.filter f l `sublist_of` List.filter g l.
Proof.
  intros H. induction l as [|x l IH]; simpl; [constructor|].
  destruct (f x) eqn:E.
  - rewrite (H _ E). by constructor.
  - destruct (g x); [by constructor|done].
Qed.

Section FilterMore.

Variable float_repr : spec_float -> string.

(** The filter, with its guard written on the query itself. *)
Lemma search_dataframe_unfold df q :
  search_dataframe float_repr df q =
  if blank q then Good empty_frame
  else match rows df with
       | [] => filter_without_rows df (PyStr.lower q)
       | _ :: _ =>
           match apply_rows (row_matches float_repr df (PyStr.lower q)) (rows df) with
           | Good mask => Good (boolean_index df mask)
           | ReError => ReError
           | NotModelled => NotModelled
           end
       end.
Proof. unfold search_dataframe. by rewrite strip_eqb. Qed.

Lemma search_dataframe_raises df q :
  blank q = false -> PyRe.compile (PyStr.lower q) = ReError -> rows df <> [] ->
  search_dataframe float_repr df q = ReError.
Proof.
  intros Hb Hc Hr. rewrite search_dataframe_unfold, Hb.
  destruct (rows df) as [|r rs]; [done|]. simpl.
  unfold row_matches, str_contains_any. by rewrite Hc.
Qed.

End FilterMore.

Lemma starts_badly_compile q :
  starts_badly q = true ->
  blank q = false /\ PyRe.compile (PyStr.lower q) = ReError.
Proof.
  destruct q as [|c q]; [discriminate|].
  each_char c; try discriminate; intros _; split; reflexivity.
Qed.

(** X1: the filter reads the query only through its lowercase form: two
    queries that differ in letter case only give the same outcome on every
    table. *)
Theorem search_dataframe_ignores_query_case
    (float_repr : spec_float -> string) (df : DataFrame) (q q' : string) :
  PyStr.lower q = PyStr.lower q' ->
  search_dataframe float_repr df q = search_dataframe float_repr df q'.
Proof.
  intros H. rewrite !search_dataframe_unfold.
  rewrite <- (blank_lower q), <- (blank_lower q'). by rewrite H.
Qed.

Lemma search_dataframe_ignores_query_case_witness :
  PyStr.lower "SECURITY" = PyStr.lower "Security"
  /\ search_dataframe special_float_repr catalog "SECURITY" =
     search_dataframe special_float_repr catalog "Security".
Proof.
  split; [reflexivity|].
  apply (search_dataframe_ignores_query_case special_float_repr catalog
           "SECURITY" "Security").
  reflexivity.
Defined.

(** X3: a query that starts with [*], [+], [?] or [)] is rejected by
    [re.compile]: on every table that has a row the filter raises [re.error]
    instead of returning a Match Set. *)
Theorem search_dataframe_raises_on_leading_repeat
    (float_repr : spec_float -> string) (df : DataFrame) (q : string) :
  starts_badly q = true -> rows df <> [] ->
  search_dataframe float_repr df q = ReError.
Proof.
  intros [Hb Hc]%starts_badly_compile Hr. by apply search_dataframe_raises.
Qed.

Lemma search_dataframe_raises_on_leading_repeat_witness :
  starts_badly "+1 year support" = true /\ rows catalog <> []
  /\ search_dataframe special_float_repr catalog "+1 year support" = ReError.
Proof.
  assert (H1 : starts_badly "+1 year support" = true) by reflexivity.
  assert (H2 : rows catalog <> []) by discriminate.
  exact (conj H1 (conj H2
    (search_dataframe_raises_on_leading_repeat special_float_repr catalog
       "+1 year support" H1 H2))).
Defined.

(** *** Escaped queries *)










(** ** Further properties of the loader *)

(** *** Widening an int never produces a missing value *)








(** *** Shape of the Unified Table *)

Lemma length_reindex cols names r : length (reindex cols names r) = length cols.
Proof. unfold reindex. apply length_map. Qed.

Lemma aligned_rows_length cols frames :
  Forall (fun r => length r = length cols) (flat_map (aligned_rows cols) frames).
Proof.
  apply List.Forall_forall. intros r H. apply in_flat_map in H as (df & _ & H).
  unfold aligned_rows in H. apply in_map_iff in H as (r0 & <- & _).
  apply length_reindex.
Qed.

Lemma length_column_dtypes frames cols rs :
  length (column_dtypes frames cols rs) = length cols.
Proof. unfold column_dtypes. apply length_imap. Qed.

Lemma length_conform frames r :
  length r = length (union_columns frames) ->
  length (conform frames r) = length (union_columns frames).
Proof.
  intros H. unfold conform, cast_row.
  rewrite length_map, length_zip_with, length_column_dtypes. lia.
Qed.

Lemma NoDup_add_column acc name : NoDup acc -> NoDup (add_column acc name).
Proof.
  intros H. unfold add_column.
  destruct (existsb (String.eqb name) acc) eqn:E; [done|].
  apply NoDup_app. split; [done|]. split; [|apply NoDup_singleton].
  intros x Hx ->%list_elem_of_singleton.
  assert (existsb (String.eqb name) acc = true); [|congruence].
  apply existsb_exists. exists name. split; [by apply list_elem_of_In|].
  apply String.eqb_refl.
Qed.

Lemma NoDup_add_columns names acc :
  NoDup acc -> NoDup (fold_left add_column names acc).
Proof.
  revert acc. induction names as [|n names IH]; intros acc H; simpl; [done|].
  by apply IH, NoDup_add_column.
Qed.

Lemma NoDup_union_columns frames : NoDup (union_columns frames).
Proof.
  unfold union_columns. generalize (NoDup_nil_2 (A:=string)).
  generalize (@nil string). induction frames as [|df frames IH]; intros acc H; simpl.
  - done.
  - by apply IH, NoDup_add_columns.
Qed.

Section LoaderMore.

Variable read_csv : string -> read_result.

Lemma in_loaded paths df :
  In df (loaded read_csv paths) <-> exists p, In p paths /\ read_csv p = ReadOk df.
Proof.
  unfold loaded. rewrite in_flat_map. split.
  - intros (p & Hp & H). exists p. split; [done|].
    destruct (read_csv p); simpl in H; [|done|done]. by destruct H as [->|[]].
  - intros (p & Hp & H). exists p. split; [done|]. rewrite H. by left.
Qed.

Lemma load_columns paths :
  columns (fst (load_and_combine_data read_csv paths)) =
  union_columns (loaded read_csv paths).
Proof.
  rewrite load_and_combine_data_spec. by destruct (loaded read_csv paths).
Qed.

Lemma load_rows paths :
  rows (fst (load_and_combine_data read_csv paths)) =
  map (conform (loaded read_csv paths))
    (flat_map (aligned_rows (union_columns (loaded read_csv paths)))
       (loaded read_csv paths)).
Proof.
  rewrite load_and_combine_data_spec.
  destruct (loaded read_csv paths) as [|df frames] eqn:E; [done|].
  cbn [fst]. unfold fillna, concat, conform. cbn [rows columns].
  by rewrite map_map.
Qed.

Lemma sum_len_app l1 l2 : sum_len (l1 ++ l2) = (sum_len l1 + sum_len l2)%nat.
Proof. induction l1 as [|df l1 IH]; simpl; [done|]. rewrite IH. lia. Qed.

Lemma load_len paths :
  len (fst (load_and_combine_data read_csv paths)) = sum_len (loaded read_csv paths).
Proof.
  unfold len. by rewrite load_rows, length_map, length_aligned.
Qed.

Lemma length_skip_reports paths :
  length (skip_reports read_csv paths) = length (List.filter (unread read_csv) paths).
Proof.
  unfold skip_reports, unread. induction paths as [|p paths IH]; simpl; [done|].
  rewrite length_app, IH. by destruct (read_csv p).
Qed.

Lemma loaded_nil_forallb paths :
  loaded read_csv paths = [] <-> forallb (unread read_csv) paths = true.
Proof.
  rewrite <- loaded_none, forallb_forall, List.Forall_forall. unfold unread.
  split; intros H p Hp.
  - by rewrite (H p Hp).
  - specialize (H p Hp). by destruct (is_loaded (read_csv p)).
Qed.

End LoaderMore.




(** X5: whatever the shapes of the sheets, the Unified Table is
    rectangular: every row has one cell per column of the table. *)
Theorem load_table_is_rectangular
    (read_csv : string -> read_result) (paths : list string) :
  Forall (fun r => length r =
                   length (columns (fst (load_and_combine_data read_csv paths))))
    (rows (fst (load_and_combine_data read_csv paths))).
Proof.
  rewrite load_rows, load_columns. apply Forall_map.
  eapply Forall_impl; [apply aligned_rows_length|].
  intros r H. by apply length_conform.
Qed.

(** X6: the columns of the Unified Table are the column labels of the
    sheets that were read, each label once: a label is a column of the table
    exactly when some sheet that was read has it. *)
Theorem load_columns_are_union
    (read_csv : string -> read_result) (paths : list string) :
  NoDup (columns (fst (load_and_combine_data read_csv paths)))
  /\ forall name,
       In name (columns (fst (load_and_combine_data read_csv paths))) <->
       exists p df, In p paths /\ read_csv p = ReadOk df /\ In name (columns df).
Proof.
  rewrite load_columns. split; [apply NoDup_union_columns|].
  intros name. rewrite in_union_columns. split.
  - intros (df & Hdf & Hn). apply in_loaded in Hdf as (p & Hp & H).
    by exists p, df.
  - intros (p & df & Hp & H & Hn). exists df. split; [|done].
    apply in_loaded. by exists p.
Qed.

(** X7: the row count adds up over the list of sources: loading two lists
    one after the other gives as many rows as loading them separately, so
    a source that is skipped adds nothing and a source listed twice counts
    twice. *)
Theorem load_row_count_adds_up
    (read_csv : string -> read_result) (paths1 paths2 : list string) :
  len (fst (load_and_combine_data read_csv (paths1 ++ paths2))) =
  (len (fst (load_and_combine_data read_csv paths1))
   + len (fst (load_and_combine_data read_csv paths2)))%nat.
Proof. by rewrite !load_len, loaded_app, sum_len_app. Qed.

(** X8: a source whose reading raises another exception than
    [FileNotFoundError] is skipped as well: the Unified Table is the one of
    the remaining sources, the failure is reported through [st.error] with
    the path and the text of the exception, and no warning is added. *)
Theorem load_skips_failing_source
    (read_csv : string -> read_result) (before after : list string)
    (failing e : string) :
  read_csv failing = ReadFailed e ->
  fst (load_and_combine_data read_csv (before ++ failing :: after)) =
    fst (load_and_combine_data read_csv (before ++ after))
  /\ In (st_error ("Error loading " +:+ failing +:+ ": " +:+ e))
       (snd (load_and_combine_data read_csv (before ++ failing :: after)))
  /\ List.filter is_warning
       (snd (load_and_combine_data read_csv (before ++ failing :: after))) =
     List.filter is_warning
       (snd (load_and_combine_data read_csv (before ++ after))).
Proof.
  intros Hf. rewrite !load_and_combine_data_spec.
  assert (Hl : loaded read_csv (before ++ failing :: after) =
               loaded read_csv (before ++ after)).
  { rewrite !loaded_app. f_equal. unfold loaded. simpl. by rewrite Hf. }
  assert (Hs : skip_reports read_csv (before ++ failing :: after) =
               skip_reports read_csv before ++
               st_error ("Error loading " +:+ failing +:+ ": " +:+ e)
               :: skip_reports read_csv after).
  { rewrite skip_reports_app. f_equal. unfold skip_reports. simpl. by rewrite Hf. }
  rewrite Hl, Hs, skip_reports_app.
  destruct (loaded read_csv (before ++ after)); cbn [fst snd];
    (split; [done|]); split;
    rewrite ?in_app_iff, ?List.filter_app; simpl; auto.
Qed.

Lemma load_skips_failing_source_witness :
  two_sheets "Broken.csv" = ReadFailed "No columns to parse from file"
  /\ fst (load_and_combine_data two_sheets
            (["Trellix Helix.csv"] ++ "Broken.csv" :: ["Skyhigh.csv"])) =
       fst (load_and_combine_data two_sheets (["Trellix Helix.csv"] ++ ["Skyhigh.csv"]))
  /\ In (st_error ("Error loading " +:+ "Broken.csv" +:+ ": "
                     +:+ "No columns to parse from file"))
       (snd (load_and_combine_data two_sheets
               (["Trellix Helix.csv"] ++ "Broken.csv" :: ["Skyhigh.csv"])))
  /\ List.filter is_warning
       (snd (load_and_combine_data two_sheets
               (["Trellix Helix.csv"] ++ "Broken.csv" :: ["Skyhigh.csv"]))) =
     List.filter is_warning
       (snd (load_and_combine_data two_sheets (["Trellix Helix.csv"] ++ ["Skyhigh.csv"]))).
Proof.
  assert (H : two_sheets "Broken.csv" = ReadFailed "No columns to parse from file")
    by reflexivity.
  split; [exact H|].
  exact (load_skips_failing_source two_sheets ["Trellix Helix.csv"] ["Skyhigh.csv"]
           "Broken.csv" "No columns to parse from file" H).
Defined.

(** X9: every source that is not read is reported exactly once and a
    source that is read is not reported: the loader makes one report per
    unread source, plus the final error when no source at all was read. *)
Theorem load_reports_each_unread_source_once
    (read_csv : string -> read_result) (paths : list string) :
  length (snd (load_and_combine_data read_csv paths)) =
  (length (List.filter (unread read_csv) paths)
   + if forallb (unread read_csv) paths then 1 else 0)%nat.
Proof.
  rewrite load_and_combine_data_spec.
  pose proof (loaded_nil_forallb read_csv paths) as H.
  destruct (loaded read_csv paths) as [|df frames] eqn:E; cbn [snd].
  - rewrite (proj1 H eq_refl), length_app, length_skip_reports. simpl. lia.
  - destruct (forallb (unread read_csv) paths).
    + discriminate (proj2 H eq_refl).
    + rewrite length_skip_reports. lia.
Qed.


(** ** Further properties of the summarisation step *)

(** X11: of a Match Set with more than 10 rows, the rows after the tenth
    reach the collaborator only as a count: two Match Sets with the same
    columns, the same first 10 rows and the same number of rows give the
    same prompt, hence the same answer. *)
Theorem summary_hides_rows_after_the_tenth
    (to_markdown : DataFrame -> string)
    (generate_content : string -> string + string)
    (query : string) (df df' : DataFrame) :
  columns df = columns df' ->
  firstn 10 (rows df) = firstn 10 (rows df') ->
  len df = len df' ->
  (10 < len df)%nat ->
  make_prompt to_markdown query df = make_prompt to_markdown query df'
  /\ get_gemini_answer to_markdown generate_content query df =
     get_gemini_answer to_markdown generate_content query df'.
Proof.
  intros Hc Hr Hl Hlt.
  assert (H : make_prompt to_markdown query df = make_prompt to_markdown query df').
  { unfold make_prompt.
    assert (He : empty df = empty df').
    { unfold empty. unfold len in Hl. by rewrite Hc, Hl. }
    rewrite He. destruct (empty df'); [done|].
    rewrite !results_str_over by (unfold max_rows_for_gemini; lia).
    unfold head, max_rows_for_gemini. by rewrite Hc, Hr, Hl. }
  split; [done|]. unfold get_gemini_answer. by rewrite H.
Qed.

Lemma summary_hides_rows_after_the_tenth_witness :
  columns fifteen_rows = columns helix_more
  /\ firstn 10 (rows fifteen_rows) = firstn 10 (rows helix_more)
  /\ len fifteen_rows = len helix_more
  /\ (10 < len fifteen_rows)%nat
  /\ rows fifteen_rows <> rows helix_more
  /\ make_prompt plain_markdown "sku" fifteen_rows =
     make_prompt plain_markdown "sku" helix_more
  /\ get_gemini_answer plain_markdown gemini_echo "sku" fifteen_rows =
     get_gemini_answer plain_markdown gemini_echo "sku" helix_more.
Proof.
  assert (H1 : columns fifteen_rows = columns helix_more) by reflexivity.
  assert (H2 : firstn 10 (rows fifteen_rows) = firstn 10 (rows helix_more))
    by reflexivity.
  assert (H3 : len fifteen_rows = len helix_more) by reflexivity.
  assert (H4 : (10 < len fifteen_rows)%nat) by (vm_compute; lia).
  assert (H5 : rows fifteen_rows <> rows helix_more) by discriminate.
  exact (conj H1 (conj H2 (conj H3 (conj H4 (conj H5
    (summary_hides_rows_after_the_tenth plain_markdown gemini_echo "sku"
       fifteen_rows helix_more H1 H2 H3 H4)))))).
Defined.

(** ** Properties of one run of the page *)

Section PageFacts.

Variable read_csv : string -> read_result.
Variable float_repr : spec_float -> string.

Lemma empty_false_rows df : empty df = false -> rows df <> [].
Proof. unfold empty. by destruct (rows df). Qed.

Lemma search_and_answer_blank to_markdown generate_content table q :
  blank q = true ->
  search_and_answer float_repr to_markdown generate_content table q =
  ([searching; st_subheader SearchResultsHeading; no_direct_matches;
    st_subheader GeminiAnswerHeading]
     ++ map st_report (snd (get_gemini_answer to_markdown generate_content q empty_frame))
     ++ [st_write (fst (get_gemini_answer to_markdown generate_content q empty_frame))]
     ++ page_bottom,
   Finished).
Proof.
  intros Hb. unfold search_and_answer.
  rewrite search_dataframe_unfold, Hb. simpl.
  by destruct (get_gemini_answer to_markdown generate_content q empty_frame).
Qed.

End PageFacts.

(** X12: a query made of white space only is still sent on: with a table
    that is not empty, pressing the button with such a query (the empty
    string apart) shows "No direct matches found ..." and calls the
    collaborator once, with the prompt that says no relevant data was
    found; what the collaborator answers is written to the page. *)
Theorem app_blank_query_still_asks_gemini
    (read_csv : string -> read_result) (float_repr : spec_float -> string)
    (to_markdown : DataFrame -> string)
    (generate_content : string -> string + string)
    (key user_query : string) :
  empty (fst (load_and_combine_data read_csv CSV_FILES)) = false ->
  user_query <> "" -> blank user_query = true ->
  app read_csv float_repr to_markdown generate_content (Some key) user_query true =
    (page_top
       ++ map st_report (snd (load_and_combine_data read_csv CSV_FILES))
       ++ search_widgets (fst (load_and_combine_data read_csv CSV_FILES))
       ++ [searching; st_subheader SearchResultsHeading; no_direct_matches;
           st_subheader GeminiAnswerHeading]
       ++ map st_report
            (snd (get_gemini_answer to_markdown generate_content user_query empty_frame))
       ++ [st_write
             (fst (get_gemini_answer to_markdown generate_content user_query empty_frame))]
       ++ page_bottom,
     Finished)
  /\ fst (get_gemini_answer to_markdown generate_content user_query empty_frame) =
     match generate_content
             ("The user searched for '" +:+ user_query +:+
              "' but no relevant data was found in the pricebook. Please provide a helpful response indicating that no matching items were found.")
     with
     | inl text => text
     | inr _ => apology
     end.
Proof.
  intros He Hq Hb. split.
  - unfold app.
    destruct (load_and_combine_data read_csv CSV_FILES) as [table log].
    simpl in He. rewrite He. simpl.
    apply String.eqb_neq in Hq. rewrite Hq. simpl.
    rewrite search_and_answer_blank by done. simpl. by rewrite <- ?app_assoc.
  - unfold get_gemini_answer, make_prompt. simpl.
    by destruct (generate_content _).
Qed.

Lemma app_blank_query_still_asks_gemini_witness :
  empty (fst (load_and_combine_data (every_sheet_is catalog) CSV_FILES)) = false
  /\ "   " <> ""
  /\ blank "   " = true
  /\ snd (app (every_sheet_is catalog) special_float_repr plain_markdown gemini_echo
            (Some "key") "   " true) = Finished
  /\ fst (get_gemini_answer plain_markdown gemini_echo "   " empty_frame) =
     "The user searched for '   ' but no relevant data was found in the pricebook. Please provide a helpful response indicating that no matching items were found.".
Proof.
  assert (H1 : empty (fst (load_and_combine_data (every_sheet_is catalog) CSV_FILES))
               = false) by reflexivity.
  assert (H2 : "   " <> "") by discriminate.
  assert (H3 : blank "   " = true) by reflexivity.
  destruct (app_blank_query_still_asks_gemini (every_sheet_is catalog)
              special_float_repr plain_markdown gemini_echo "key" "   " H1 H2 H3)
    as [Ha Hg].
  split; [exact H1|]. split; [exact H2|]. split; [exact H3|].
  split; [by rewrite Ha|exact Hg].
Defined.

(** X13: with a table that is not empty, pressing the button with a query
    that starts with [*], [+], [?] or [)] ends the run with an uncaught
    [re.error]: the page stops after the spinner, with no result, no answer
    and no call of the collaborator. *)
Theorem app_raises_on_leading_repeat
    (read_csv : string -> read_result) (float_repr : spec_float -> string)
    (to_markdown : DataFrame -> string)
    (generate_content : string -> string + string)
    (key user_query : string) :
  empty (fst (load_and_combine_data read_csv CSV_FILES)) = false ->
  starts_badly user_query = true ->
  app read_csv float_repr to_markdown generate_content (Some key) user_query true =
    (page_top
       ++ map st_report (snd (load_and_combine_data read_csv CSV_FILES))
       ++ search_widgets (fst (load_and_combine_data read_csv CSV_FILES))
       ++ [searching],
     Raised).
Proof.
  intros He Hq. unfold app.
  destruct (load_and_combine_data read_csv CSV_FILES) as [table log].
  simpl in He. rewrite He. simpl.
  assert (Hne : String.eqb user_query "" = false) by (by destruct user_query).
  rewrite Hne. simpl. unfold search_and_answer.
  destruct (starts_badly_compile _ Hq) as [Hb Hc].
  rewrite (search_dataframe_raises float_repr table user_query Hb Hc
             (empty_false_rows _ He)).
  simpl. by rewrite <- ?app_assoc.
Qed.

Lemma app_raises_on_leading_repeat_witness :
  empty (fst (load_and_combine_data (every_sheet_is catalog) CSV_FILES)) = false
  /\ starts_badly "*helix" = true
  /\ snd (app (every_sheet_is catalog) special_float_repr plain_markdown gemini_echo
            (Some "key") "*helix" true) = Raised
  /\ List.filter is_output
       (fst (app (every_sheet_is catalog) special_float_repr plain_markdown gemini_echo
               (Some "key") "*helix" true)) = [].
Proof.
  assert (H1 : empty (fst (load_and_combine_data (every_sheet_is catalog) CSV_FILES))
               = false) by reflexivity.
  assert (H2 : starts_badly "*helix" = true) by reflexivity.
  pose proof (app_raises_on_leading_repeat (every_sheet_is catalog)
                special_float_repr plain_markdown gemini_echo "key" "*helix" H1 H2)
    as Ha.
  split; [exact H1|]. split; [exact H2|]. rewrite Ha. split; reflexivity.
Defined.

(** X14: the collaborator and the table renderer are used only by a search:
    without a secret, without a press of the button, with the empty query
    or with an empty table, the run does not depend on them. *)
Theorem app_consults_gemini_only_on_search
    (read_csv : string -> read_result) (float_repr : spec_float -> string)
    (to_markdown to_markdown' : DataFrame -> string)
    (generate_content generate_content' : string -> string + string)
    (secret : option string) (user_query : string) (clicked : bool) :
  secret = None \/ clicked = false \/ user_query = ""
  \/ empty (fst (load_and_combine_data read_csv CSV_FILES)) = true ->
  app read_csv float_repr to_markdown generate_content secret user_query clicked =
  app read_csv float_repr to_markdown' generate_content' secret user_query clicked.
Proof.
  intros H. unfold app. destruct secret as [key|]; [|done].
  destruct (load_and_combine_data read_csv CSV_FILES) as [table log].
  simpl in H. destruct (empty table); [done|]. simpl.
  destruct clicked; [|done].
  destruct H as [H|[H|[->|H]]]; done.
Qed.

Lemma app_consults_gemini_only_on_search_witness :
  (Some "key" = None \/ true = false \/ "" = ""
   \/ empty (fst (load_and_combine_data (every_sheet_is catalog) CSV_FILES)) = true)
  /\ app (every_sheet_is catalog) special_float_repr plain_markdown gemini_echo
       (Some "key") "" true =
     app (every_sheet_is catalog) special_float_repr plain_markdown gemini_down
       (Some "key") "" true.
Proof.
  assert (H : Some "key" = None \/ true = false \/ "" = ""
              \/ empty (fst (load_and_combine_data (every_sheet_is catalog) CSV_FILES))
                 = true)
    by (right; right; left; reflexivity).
  split; [exact H|].
  exact (app_consults_gemini_only_on_search (every_sheet_is catalog)
           special_float_repr plain_markdown plain_markdown gemini_echo gemini_down
           (Some "key") "" true H).
Defined.

Section PageLoadFacts.

Variable read_csv : string -> read_result.

Lemma loaded_without_rows paths :
  Forall (fun p => exists df, read_csv p = ReadOk df /\ rows df = []) paths ->
  skip_reports read_csv paths = []
  /\ Forall (fun df => rows df = []) (loaded read_csv paths)
  /\ length (loaded read_csv paths) = length paths.
Proof.
  unfold skip_reports, loaded.
  induction 1 as [|p paths (df & Hp & Hr) _ (IH1 & IH2 & IH3)]; simpl; [done|].
  rewrite Hp. simpl. rewrite IH1, IH3. split; [done|]. split; [by constructor|done].
Qed.

Lemma aligned_without_rows cols frames :
  Forall (fun df => rows df = []) frames ->
  flat_map (aligned_rows cols) frames = [].
Proof.
  induction 1 as [|df frames H _ IH]; simpl; [done|].
  unfold aligned_rows at 1. by rewrite H, IH.
Qed.

Lemma banner_in_page l table rest :
  In (st_success ("Loaded " +:+ PyStr.str_int (Z.of_nat (len table))
                    +:+ " rows from your pricebook."))
    ((page_top ++ l) ++ search_widgets table ++ rest).
Proof. apply in_or_app. right. apply in_or_app. left. by left. Qed.

End PageLoadFacts.

(** X15: when none of the sheets is read, the page shows the reports of
    the loader, its error "No data loaded ..." and the error "Could not
    load pricebook data ..."; it offers no input box and no button, and the
    query and the button have no effect. *)
Theorem app_nothing_loaded
    (read_csv : string -> read_result) (float_repr : spec_float -> string)
    (to_markdown : DataFrame -> string)
    (generate_content : string -> string + string)
    (key user_query : string) (clicked : bool) :
  Forall (fun p => is_loaded (read_csv p) = false) CSV_FILES ->
  app read_csv float_repr to_markdown generate_content (Some key) user_query clicked =
    (page_top
       ++ map st_report (skip_reports read_csv CSV_FILES)
       ++ [st_report no_data_loaded; could_not_load]
       ++ page_bottom,
     Finished).
Proof.
  intros H. unfold app. rewrite load_and_combine_data_spec.
  apply loaded_none in H. rewrite H. cbn [empty_frame empty rows columns length
    Nat.eqb orb negb]. by rewrite map_app, <- !app_assoc.
Qed.

Lemma app_nothing_loaded_witness :
  Forall (fun p => is_loaded (failing_disk p) = false) CSV_FILES
  /\ app failing_disk special_float_repr plain_markdown gemini_echo
       (Some "key") "helix" true =
     (page_top
        ++ map st_report (skip_reports failing_disk CSV_FILES)
        ++ [st_report no_data_loaded; could_not_load]
        ++ page_bottom,
      Finished).
Proof.
  assert (H : Forall (fun p => is_loaded (failing_disk p) = false) CSV_FILES)
    by (repeat constructor).
  split; [exact H|].
  exact (app_nothing_loaded failing_disk special_float_repr plain_markdown
           gemini_echo "key" "helix" true H).
Defined.

(** X16: sheets that are read but hold no data row are taken for a failed
    load: when every sheet is read and none has a row, the loader reports
    nothing, and the page still shows "Could not load pricebook data ..."
    and offers no search. *)
Theorem app_sheets_without_rows
    (read_csv : string -> read_result) (float_repr : spec_float -> string)
    (to_markdown : DataFrame -> string)
    (generate_content : string -> string + string)
    (key user_query : string) (clicked : bool) :
  Forall (fun p => exists df, read_csv p = ReadOk df /\ rows df = []) CSV_FILES ->
  snd (load_and_combine_data read_csv CSV_FILES) = []
  /\ app read_csv float_repr to_markdown generate_content (Some key) user_query clicked =
     (page_top ++ [could_not_load] ++ page_bottom, Finished).
Proof.
  intros H. apply loaded_without_rows in H as (Hs & Hr & Hl).
  assert (Hrows : rows (fst (load_and_combine_data read_csv CSV_FILES)) = []).
  { rewrite load_rows. by rewrite aligned_without_rows. }
  assert (Hlog : snd (load_and_combine_data read_csv CSV_FILES) = []).
  { rewrite load_and_combine_data_spec.
    destruct (loaded read_csv CSV_FILES); [discriminate Hl|]. by rewrite Hs. }
  split; [done|]. unfold app.
  destruct (load_and_combine_data read_csv CSV_FILES) as [table log].
  simpl in Hrows, Hlog. subst log. unfold empty. by rewrite Hrows.
Qed.

Lemma app_sheets_without_rows_witness :
  Forall (fun p => exists df, every_sheet_is headers_only p = ReadOk df /\ rows df = [])
    CSV_FILES
  /\ snd (load_and_combine_data (every_sheet_is headers_only) CSV_FILES) = []
  /\ app (every_sheet_is headers_only) special_float_repr plain_markdown gemini_echo
       (Some "key") "helix" true =
     (page_top ++ [could_not_load] ++ page_bottom, Finished).
Proof.
  assert (H : Forall (fun p => exists df,
                        every_sheet_is headers_only p = ReadOk df /\ rows df = [])
                CSV_FILES).
  { apply List.Forall_forall. intros p _. exists headers_only. split; reflexivity. }
  split; [exact H|].
  exact (app_sheets_without_rows (every_sheet_is headers_only) special_float_repr
           plain_markdown gemini_echo "key" "helix" true H).
Defined.

(** X17: when the table is not empty, the page announces its size, and the
    number it shows is the number of rows of the sheets that were read,
    added up; this holds for every query and whether or not the button was
    pressed. *)
Theorem app_success_banner_counts_rows
    (read_csv : string -> read_result) (float_repr : spec_float -> string)
    (to_markdown : DataFrame -> string)
    (generate_content : string -> string + string)
    (key user_query : string) (clicked : bool) :
  empty (fst (load_and_combine_data read_csv CSV_FILES)) = false ->
  In (st_success ("Loaded "
                    +:+ PyStr.str_int (Z.of_nat (sum_len (loaded read_csv CSV_FILES)))
                    +:+ " rows from your pricebook."))
    (fst (app read_csv float_repr to_markdown generate_content
            (Some key) user_query clicked)).
Proof.
  intros He. rewrite <- load_len. unfold app.
  destruct (load_and_combine_data read_csv CSV_FILES) as [table log].
  cbn [fst] in *. rewrite He. cbn [negb].
  destruct clicked;
    [destruct (negb (String.eqb user_query ""));
       [destruct (search_and_answer _ _ _ _ _) as [shown e]|]|];
    cbn [fst]; apply banner_in_page.
Qed.

Lemma app_success_banner_counts_rows_witness :
  empty (fst (load_and_combine_data (every_sheet_is catalog) CSV_FILES)) = false
  /\ In (st_success "Loaded 34 rows from your pricebook.")
       (fst (app (every_sheet_is catalog) special_float_repr plain_markdown gemini_echo
               (Some "key") "helix" false)).
Proof.
  assert (H : empty (fst (load_and_combine_data (every_sheet_is catalog) CSV_FILES))
              = false) by reflexivity.
  split; [exact H|].
  exact (app_success_banner_counts_rows (every_sheet_is catalog) special_float_repr
           plain_markdown gemini_echo "key" "helix" false H).
Defined.

(** ** The Unified Table carries the source rows *)











(** ** The loader: the claims on the cells and on the order of the rows *)





(** ** The row filter for every query *)

Section AnyPatternFacts.

Variable float_repr : spec_float -> string.
Variable rest : beyond.

Lemma row_matches_refines df q r b :
  row_matches float_repr df q r = Good b ->
  row_matches_with float_repr rest df q r = Some b.
Proof.
  unfold row_matches, str_contains_any, row_matches_with, compile_with.
  destruct (PyRe.compile q); [|done|done]. by intros [= <-].
Qed.

Lemma apply_rows_refines df q rs mask :
  apply_rows (row_matches float_repr df q) rs = Good mask ->
  apply_rows_with (row_matches_with float_repr rest df q) rs = Some mask.
Proof.
  revert mask. induction rs as [|r rs IH]; intros mask; simpl.
  - by intros [= <-].
  - destruct (row_matches float_repr df q r) as [b| |] eqn:E; [|done|done].
    rewrite (row_matches_refines _ _ _ _ E).
    destruct (apply_rows (row_matches float_repr df q) rs) as [bs| |]; [|done|done].
    intros [= <-]. by rewrite (IH bs).
Qed.

(** Where the model of the fragment gives a Match Set, the filter for
    every query gives the same one, whatever [re] does elsewhere. *)
Lemma search_dataframe_refines df q res :
  search_dataframe float_repr df q = Good res ->
  search_dataframe_with float_repr rest df q = Some res.
Proof.
  unfold search_dataframe, search_dataframe_with.
  destruct (String.eqb (PyStr.strip q) ""); [by intros [= <-]|].
  destruct (rows df) as [|r0 rs0] eqn:Er.
  - unfold filter_without_rows, compile_with.
    destruct (PyRe.compile (PyStr.lower q)); [| |done]; by intros [= <-].
  - destruct (apply_rows _ (r0 :: rs0)) as [mask| |] eqn:E; [|done|done].
    intros [= <-]. by rewrite (apply_rows_refines _ _ _ _ E).
Qed.

Lemma search_dataframe_with_sublist df q res :
  search_dataframe_with float_repr rest df q = Some res ->
  rows res `sublist_of` rows df.
Proof.
  unfold search_dataframe_with.
  destruct (String.eqb (PyStr.strip q) "").
  { intros [= <-]. apply sublist_nil_l. }
  destruct (rows df) as [|r0 rs0] eqn:Er.
  - destruct (compile_with rest (PyStr.lower q)); intros [= <-];
      [apply sublist_nil_l|rewrite <- Er; apply boolean_index_sublist].
  - destruct (apply_rows_with _ (r0 :: rs0)) as [mask|]; [|done].
    intros [= <-]. rewrite <- Er. apply boolean_index_sublist.
Qed.

End AnyPatternFacts.

(** C5: for every table and every query, whatever [re] makes of the
    query, the Match Set the filter returns is a subsequence of the rows of
    the table: each of its rows is a row of the table, and they come in the
    order of the table.  This includes the Match Sets of the modelled
    fragment. *)
Theorem search_dataframe_subsequence
    (float_repr : spec_float -> string) (rest : beyond)
    (df : DataFrame) (q : string) :
  (forall res,
     search_dataframe_with float_repr rest df q = Some res ->
     rows res `sublist_of` rows df /\ forall r, In r (rows res) -> In r (rows df))
  /\ (forall res,
        search_dataframe float_repr df q = Good res ->
        search_dataframe_with float_repr rest df q = Some res).
Proof.
  split.
  - intros res H. apply search_dataframe_with_sublist in H. split; [done|].
    intros r Hr. apply list_elem_of_In. apply list_elem_of_In in Hr.
    by eapply sublist_subseteq.
  - intros res. apply search_dataframe_refines.
Qed.

Lemma search_dataframe_subsequence_witness :
  search_dataframe_with special_float_repr only_char_class_e catalog "[E]" =
    Some catalog
  /\ rows catalog `sublist_of` rows catalog
  /\ search_dataframe special_float_repr catalog "100" =
       Good (mkDataFrame ["name"; "price"] [[VStr "Endpoint Security"; VStr "100"]])
  /\ [[VStr "Endpoint Security"; VStr "100"]] `sublist_of` rows catalog.
Proof.
  assert (H1 : search_dataframe_with special_float_repr only_char_class_e catalog "[E]"
               = Some catalog) by reflexivity.
  assert (H2 : search_dataframe special_float_repr catalog "100" =
               Good (mkDataFrame ["name"; "price"]
                       [[VStr "Endpoint Security"; VStr "100"]])) by reflexivity.
  destruct (search_dataframe_subsequence special_float_repr only_char_class_e
              catalog "[E]") as [Ha _].
  destruct (search_dataframe_subsequence special_float_repr only_char_class_e
              catalog "100") as [Hb Hc].
  exact (conj H1 (conj (proj1 (Ha _ H1))
           (conj H2 (proj1 (Hb _ (Hc _ H2)))))).
Defined.

(** ** The row filter: narrowing and escaped queries *)

(** X2: a query that contains another narrows its result: when the
    lowercased plain query [q] occurs inside the lowercased plain query
    [q'], both are answered, and the rows found for [q'] are a subsequence
    of the rows found for [q]. *)
Theorem search_dataframe_longer_query_narrows
    (float_repr : spec_float -> string) (df : DataFrame) (q q' : string) :
  blank q = false -> plain q = true -> plain q' = true ->
  PyStr.contains (PyStr.lower q') (PyStr.lower q) = true ->
  exists res res',
    search_dataframe float_repr df q = Good res
    /\ search_dataframe float_repr df q' = Good res'
    /\ rows res' `sublist_of` rows res.
Proof.
  intros Hb Hp Hp' Hc.
  assert (Hb' : blank q' = false).
  { rewrite <- blank_lower. rewrite <- blank_lower in Hb.
    apply contains_iff in Hc as (pre & post & ->).
    rewrite !blank_app, Hb. by rewrite andb_false_r. }
  do 2 eexists. split; [by apply search_dataframe_plain|].
  split; [by apply search_dataframe_plain|].
  destruct (rows df) as [|r0 rs0] eqn:Er; [constructor|]. cbn [rows].
  apply filter_sublist_imp. intros r. unfold cell_contains.
  rewrite !existsb_exists. intros (s & Hs & H). exists s. split; [done|].
  by eapply contains_trans.
Qed.

Lemma search_dataframe_longer_query_narrows_witness :
  blank "Security" = false /\ plain "Security" = true
  /\ plain "NETWORK SECURITY" = true
  /\ PyStr.contains (PyStr.lower "NETWORK SECURITY") (PyStr.lower "Security") = true
  /\ exists res res',
       search_dataframe special_float_repr catalog "Security" = Good res
       /\ search_dataframe special_float_repr catalog "NETWORK SECURITY" = Good res'
       /\ rows res' `sublist_of` rows res.
Proof.
  split; [reflexivity|]. split; [reflexivity|]. split; [reflexivity|].
  split; [reflexivity|].
  apply (search_dataframe_longer_query_narrows special_float_repr catalog
           "Security" "NETWORK SECURITY"); reflexivity.
Defined.


